(** * A shallow embedding of the CoFlow steady-state client (coflow.py)

    The client talks to a remote service through blocking HTTP calls, sleeps
    between polls and prints progress.  Those effects are kept explicit: every
    function of the client becomes a computation in the monad [M], which
    threads the log of observable events, the number of requests sent so far
    and the exception (if any) that is propagating.  The two polling loops of
    the source have no bound; their embeddings take a number of iterations
    [fuel] and report [Unfinished] when it is used up, keeping the events
    produced so far. *)

From Stdlib Require Import ZArith Ascii String List Lia.
From stdpp Require Import base gmap strings list pretty.

Local Open Scope Z_scope.

(** ** Python strings *)

Module Str.

Definition code (c : ascii) : nat := nat_of_ascii c.

(** [sep in s] for a one-character [sep]. *)
Fixpoint contains (sep : ascii) (s : string) : bool :=
  match s with
  | EmptyString => false
  | String c s' => if Ascii.eqb c sep then true else contains sep s'
  end.

(** [s.find(sep)]: [None] stands for Python's -1. *)
Fixpoint find (sep : ascii) (s : string) : option nat :=
  match s with
  | EmptyString => None
  | String c s' =>
      if Ascii.eqb c sep then Some O else S <$> find sep s'
  end.

(** [s[:n]] and [s[n:]]. *)
Fixpoint take (n : nat) (s : string) : string :=
  match n, s with
  | S n', String c s' => String c (take n' s')
  | _, _ => EmptyString
  end.

Fixpoint drop (n : nat) (s : string) : string :=
  match n, s with
  | S n', String _ s' => drop n' s'
  | _, _ => s
  end.

(** [s.split(sep)] for a one-character [sep]: one piece more than there are
    separators, empty pieces included. *)
Fixpoint split (sep : ascii) (s : string) : list string :=
  match s with
  | EmptyString => [EmptyString]
  | String c s' =>
      if Ascii.eqb c sep then EmptyString :: split sep s'
      else match split sep s' with
           | piece :: pieces => String c piece :: pieces
           | [] => [String c EmptyString]
           end
  end.

(** [s.split(sep, 1)]: the text before the first [sep] and the text after
    it; called only when [sep in s]. *)
Fixpoint split_once (sep : ascii) (s : string) : string * string :=
  match s with
  | EmptyString => (EmptyString, EmptyString)
  | String c s' =>
      if Ascii.eqb c sep then (EmptyString, s')
      else let '(before, after) := split_once sep s' in
           (String c before, after)
  end.

(** [s.lstrip(chars)] and [s.replace(c, "")], with the character class as a
    predicate. *)
Fixpoint lstrip (strip : ascii -> bool) (s : string) : string :=
  match s with
  | String c s' => if strip c then lstrip strip s' else s
  | EmptyString => EmptyString
  end.

Fixpoint remove (unsafe : ascii -> bool) (s : string) : string :=
  match s with
  | EmptyString => EmptyString
  | String c s' =>
      if unsafe c then remove unsafe s' else String c (remove unsafe s')
  end.

Fixpoint forallb (p : ascii -> bool) (s : string) : bool :=
  match s with
  | EmptyString => true
  | String c s' => p c && forallb p s'
  end.

Definition is_upper (c : ascii) : bool :=
  (65 <=? code c)%nat && (code c <=? 90)%nat.
Definition is_lower (c : ascii) : bool :=
  (97 <=? code c)%nat && (code c <=? 122)%nat.
Definition is_digit (c : ascii) : bool :=
  (48 <=? code c)%nat && (code c <=? 57)%nat.
Definition is_ascii (c : ascii) : bool := (code c <? 128)%nat.

Definition lower_char (c : ascii) : ascii :=
  if is_upper c then ascii_of_nat (code c + 32) else c.

Fixpoint lower (s : string) : string :=
  match s with
  | EmptyString => EmptyString
  | String c s' => String (lower_char c) (lower s')
  end.

Fixpoint starts_with (p s : string) : bool :=
  match p, s with
  | EmptyString, _ => true
  | String a p', String b s' => Ascii.eqb a b && starts_with p' s'
  | String _ _, EmptyString => false
  end.

(** [s.replace(old, new)] for a non-empty [old]: occurrences are replaced
    from left to right and do not overlap.  [skip] counts the characters of
    an occurrence that remain to be dropped. *)
Fixpoint replace_from (skip : nat) (old new s : string) : string :=
  match s with
  | EmptyString => EmptyString
  | String c s' =>
      match skip with
      | S skip' => replace_from skip' old new s'
      | O =>
          if starts_with old s
          then new +:+ replace_from (Nat.pred (String.length old)) old new s'
          else String c (replace_from O old new s')
      end
  end.

Definition replace (old new s : string) : string := replace_from O old new s.

(** [s.count(sep)] for a one-character [sep]. *)
Fixpoint count (sep : ascii) (s : string) : nat :=
  match s with
  | EmptyString => O
  | String c s' => if Ascii.eqb c sep then S (count sep s') else count sep s'
  end.

End Str.

(** ** urllib.parse.urlsplit

    The standard library function the client parses model paths with, for
    text of 8-bit characters.  Its two validations of the authority that
    depend on other libraries ([ipaddress] for a bracketed host, [unicodedata]
    for a host with non-ASCII characters) are taken as parameters: each
    returns the message of the [ValueError] it raises, if any. *)

Module urllib.

Record SplitResult := {
  scheme : string;
  netloc : string;
  path : string;
  query : string;
  fragment : string
}.

Record Checks := {
  check_bracketed_netloc : string -> option string;
  check_nfkc_netloc : string -> option string
}.

(** [_WHATWG_C0_CONTROL_OR_SPACE] and [_UNSAFE_URL_BYTES_TO_REMOVE]. *)
Definition c0_control_or_space (c : ascii) : bool := (Str.code c <=? 32)%nat.
Definition unsafe_url_byte (c : ascii) : bool :=
  (Str.code c =? 9)%nat || (Str.code c =? 13)%nat || (Str.code c =? 10)%nat.

Definition scheme_char (c : ascii) : bool :=
  Str.is_lower c || Str.is_upper c || Str.is_digit c
  || Ascii.eqb c "+" || Ascii.eqb c "-" || Ascii.eqb c ".".

(** The scheme, when the text before the first colon is one. *)
Definition split_scheme (url : string) : string * string :=
  match Str.find ":" url, url with
  | Some (S i), String c0 _ =>
      if Str.is_ascii c0 && (Str.is_lower c0 || Str.is_upper c0)
         && Str.forallb scheme_char (Str.take (S i) url)
      then (Str.lower (Str.take (S i) url), Str.drop (S (S i)) url)
      else (EmptyString, url)
  | _, _ => (EmptyString, url)
  end.

Definition netloc_delim (c : ascii) : bool :=
  Ascii.eqb c "/" || Ascii.eqb c "?" || Ascii.eqb c "#".

(** [_splitnetloc(url, 2)], on the text after the two slashes: the authority
    runs up to the first of '/', '?' and '#'. *)
Fixpoint splitnetloc (rest : string) : string * string :=
  match rest with
  | EmptyString => (EmptyString, EmptyString)
  | String c rest' =>
      if netloc_delim c then (EmptyString, rest)
      else let '(domain, tail) := splitnetloc rest' in
           (String c domain, tail)
  end.

Definition checknetloc (lib : Checks) (netloc : string) : option string :=
  if String.eqb netloc EmptyString || Str.forallb Str.is_ascii netloc
  then None
  else check_nfkc_netloc lib netloc.

Definition urlsplit (lib : Checks) (url : string) : string + SplitResult :=
  let url := Str.lstrip c0_control_or_space url in
  let url := Str.remove unsafe_url_byte url in
  let '(scheme, url) := split_scheme url in
  let authority :=
    if Str.starts_with "//" url then
      let '(netloc, url) := splitnetloc (Str.drop 2 url) in
      let opening := Str.contains "[" netloc in
      let closing := Str.contains "]" netloc in
      if (opening && negb closing) || (closing && negb opening)
      then inl "Invalid IPv6 URL"
      else if opening && closing
      then match check_bracketed_netloc lib netloc with
           | Some msg => inl msg
           | None => inr (netloc, url)
           end
      else inr (netloc, url)
    else inr (EmptyString, url) in
  match authority with
  | inl msg => inl msg
  | inr (netloc, url) =>
      let '(url, fragment) :=
        if Str.contains "#" url then Str.split_once "#" url
        else (url, EmptyString) in
      let '(url, query) :=
        if Str.contains "?" url then Str.split_once "?" url
        else (url, EmptyString) in
      match checknetloc lib netloc with
      | Some msg => inl msg
      | None =>
          inr {| scheme := scheme; netloc := netloc; path := url;
                 query := query; fragment := fragment |}
      end
  end.

End urllib.

(** ** Exceptions *)

Inductive Exn :=
| AuthError (message : string)
| SessionError (message : string)
| CoFlowError (message : string)
| KeyError (key : string)
| IndexError (msg : string)
| ValueError (msg : string)
| TypeError (msg : string)
| AttributeError (msg : string)
| UnboundLocalError (name : string)
| JSONDecodeError (msg : string)
| RequestException (msg : string).

(** [ex.__class__.__name__] and [str(ex)]. *)
Definition class_name (ex : Exn) : string :=
  match ex with
  | AuthError _ => "AuthError"
  | SessionError _ => "SessionError"
  | CoFlowError _ => "CoFlowError"
  | KeyError _ => "KeyError"
  | IndexError _ => "IndexError"
  | ValueError _ => "ValueError"
  | TypeError _ => "TypeError"
  | AttributeError _ => "AttributeError"
  | UnboundLocalError _ => "UnboundLocalError"
  | JSONDecodeError _ => "JSONDecodeError"
  | RequestException _ => "RequestException"
  end.

Definition exn_str (ex : Exn) : string :=
  match ex with
  | AuthError m | SessionError m | CoFlowError m => m
  | KeyError k => "'" +:+ k +:+ "'"
  | IndexError m | ValueError m | TypeError m | AttributeError m => m
  | UnboundLocalError x =>
      "cannot access local variable '" +:+ x
      +:+ "' where it is not associated with a value"
  | JSONDecodeError m | RequestException m => m
  end.

(** ** Data exchanged with the service *)

(** A value of a simulation variable; the client never computes with it. *)
Inductive Value := Float (mantissa exponent : Z).

(** An entry of [input_defs] or [output_defs]: [{"path": .., "unit": ..}]. *)
Record PropertyDef := { prop_path : string; prop_unit : string }.

(** [{"propertyPath": .., "unit": .., "value": ..}] *)
Record PropertyValue := {
  propertyPath : string;
  unit_ : string;
  value : Value
}.

(** [{"propertyPath": .., "unit": ..}] *)
Record PropertyQuery := { query_propertyPath : string; query_unit : string }.

Record InitializationInfo := {
  repositoryName : string;
  projectName : string;
  studyName : string
}.

Record EditableInfo := { systemOfUnits : string; caseName : string }.

Record InitRequest := {
  initializationInfo : InitializationInfo;
  editableInfo : EditableInfo
}.

(** The [json=] argument of a request. *)
Inductive Body :=
| SessionRequest (coreCount memoryMiB : Z)
| InitBody (init_request : InitRequest)
| RunBody (properties : list PropertyValue)
| QueryBody (properties : list PropertyQuery).

(** The object [response.json()] returns: the keys the client reads, each at
    the type the source annotates it with, and each possibly absent. *)
Record JsonObject := {
  key_statusCode : option Z;
  key_status : option string;
  key_message : option string;
  key_properties : option (list PropertyValue)
}.

(** A [requests.Response], with the attributes the client reads.  [json] is
    [None] when the body is not JSON. *)
Module Response.
Record t := {
  status_code : Z;
  text : string;
  headers : gmap string string;
  json : option JsonObject
}.
End Response.

(** ** Observable events *)

Inductive Method := POST | GET | DELETE.

Inductive Printed :=
| Text (line : string)
| JsonDumps (init_request : InitRequest)   (* json.dumps(init_request, indent=4) *)
| DictRepr (init_request : InitRequest).   (* str(init_request) *)

(** Entries into the two client methods the facade brackets a session with;
    a session is named by its URL. *)
Inductive ClientCall :=
| OpenSteadyState (path : string)
| CloseSteadyState (steady_state_url : string).

Inductive Event :=
| Request (method : Method) (url : string)
          (headers : list (string * string)) (body : option Body)
| Sleep (seconds : Z)
| Print (what : Printed)
| Call (what : ClientCall).

(** ** The world the client runs in *)

Inductive Reply :=
| Responds (response : Response.t)
| Fails (msg : string).           (* the request raises instead *)

Record Env := {
  transport : nat -> Reply;          (* the reply to the n-th request sent *)
  codes_dict : list (string * Z);    (* requests.codes.__dict__.items() *)
  urllib_checks : urllib.Checks;
  debug_output : bool                (* the module's global flag *)
}.

Record State := { sent : nat; log : list Event }.

Inductive Outcome (A : Type) :=
| Returned (a : A)
| Raised (ex : Exn)
| Unfinished.                        (* still running when the fuel ran out *)
Arguments Returned {A} a.
Arguments Raised {A} ex.
Arguments Unfinished {A}.

Definition M (A : Type) : Type := Env -> State -> Outcome A * State.

#[global] Instance M_ret : MRet M := fun A a _ s => (Returned a, s).

#[global] Instance M_bind : MBind M := fun A B k m env s =>
  match m env s with
  | (Returned a, s') => k a env s'
  | (Raised ex, s') => (Raised ex, s')
  | (Unfinished, s') => (Unfinished, s')
  end.

Definition raise {A} (ex : Exn) : M A := fun _ s => (Raised ex, s).

Definition out_of_fuel {A} : M A := fun _ s => (Unfinished, s).

Definition ask : M Env := fun env s => (Returned env, s).

Definition emit (ev : Event) : M unit :=
  fun _ s => (Returned tt, {| sent := sent s; log := log s ++ [ev] |}).

(** Run [m] and hand its result or its exception to the continuation: the
    building block of [try]. *)
Definition attempt {A} (m : M A) : M (Exn + A) := fun env s =>
  match m env s with
  | (Returned a, s') => (Returned (inr a), s')
  | (Raised ex, s') => (Returned (inl ex), s')
  | (Unfinished, s') => (Unfinished, s')
  end.

(** A step that touches neither the service nor the log. *)
Definition lift {A} (r : Exn + A) : M A :=
  match r with
  | inr a => mret a
  | inl ex => raise ex
  end.

Definition print (what : Printed) : M unit := emit (Print what).

Definition debug_print (what : Printed) : M unit :=
  env ← ask;
  if debug_output env then print what else mret tt.

Module time.
Definition sleep (seconds : Z) : M unit := emit (Sleep seconds).
End time.

Module requests.

Definition codes_OK : Z := 200.
Definition codes_CREATED : Z := 201.
Definition codes_ACCEPTED : Z := 202.
Definition codes_UNAUTHORIZED : Z := 401.

Definition request (method : Method) (url : string)
    (body : option Body) (headers : list (string * string)) : M Response.t :=
  fun env s =>
    let s' := {| sent := S (sent s);
                 log := log s ++ [Request method url headers body] |} in
    match transport env (sent s) with
    | Responds response => (Returned response, s')
    | Fails msg => (Raised (RequestException msg), s')
    end.

Definition post url (json : Body) headers := request POST url (Some json) headers.
Definition get url headers := request GET url None headers.
Definition delete url headers := request DELETE url None headers.

(** [response.json()] *)
Definition Response_json (response : Response.t) : M JsonObject :=
  match Response.json response with
  | Some obj => mret obj
  | None => raise (JSONDecodeError "Expecting value")
  end.

(** [response.codes]: a [Response] has no such attribute (the table of
    status codes is [requests.codes]). *)
Definition Response_codes (response : Response.t) : M (list (string * Z)) :=
  raise (AttributeError "'Response' object has no attribute 'codes'").

(** [codes.NAME] on a table of status codes. *)
Definition codes_attr (codes : list (string * Z)) (name : string) : M Z :=
  match List.find (fun kv => String.eqb (fst kv) name) codes with
  | Some (_, code) => mret code
  | None => raise (AttributeError ("'LookupDict' object has no attribute '"
                                   +:+ name +:+ "'"))
  end.

End requests.

(** [obj[key]] on a parsed body. *)
Definition getitem {A} (field : JsonObject -> option A) (key : string)
    (obj : JsonObject) : M A :=
  match field obj with
  | Some v => mret v
  | None => raise (KeyError key)
  end.

(** [l[i]] on a list. *)
Definition list_getitem (l : list string) (i : nat) : M string :=
  match l !! i with
  | Some x => mret x
  | None => raise (IndexError "list index out of range")
  end.

(** The double quote, as a string. *)
Definition double_quote : string := String (ascii_of_nat 34) EmptyString.

(** [a + b] where [b] may be [None]; the message quotes the name of the
    type of [b]. *)
Definition str_add (a : string) (b : option string) : M string :=
  match b with
  | Some b => mret (a +:+ b)
  | None =>
      raise (TypeError ("can only concatenate str (not " +:+ double_quote
                        +:+ "NoneType" +:+ double_quote +:+ ") to str"))
  end.

(** [lookup_status_code]: the first name in [requests.codes] bound to [code]. *)
Definition lookup_status_code (codes : list (string * Z)) (code : Z) : string :=
  match List.find (fun kv => Z.eqb (snd kv) code) codes with
  | Some (key, _) => "Status: " +:+ key +:+ ", Code: " +:+ pretty code
  | None => "Error: Unrecognized status code " +:+ pretty code +:+ "."
  end.

Module CoFlowSessionStatus.

Inductive t := Unknown | Pending | Running | Failed.

Definition value (s : t) : Z :=
  match s with Unknown => 0 | Pending => 100 | Running => 200 | Failed => 300 end.

Definition name (s : t) : string :=
  match s with
  | Unknown => "Unknown" | Pending => "Pending"
  | Running => "Running" | Failed => "Failed"
  end.

(** [__eq__] against an [int]. *)
Definition eq_int (self : t) (other : Z) : bool := value self =? other.

(** [CoFlowSessionStatus(code)]; [None] stands for [ValueError]. *)
Definition of_value (code : Z) : option t :=
  List.find (fun s => value s =? code) [Unknown; Pending; Running; Failed].

End CoFlowSessionStatus.

Definition lookup_coflow_status_code (code : Z) : string :=
  match CoFlowSessionStatus.of_value code with
  | Some status =>
      "Status: " +:+ CoFlowSessionStatus.name status
      +:+ ", Code: " +:+ pretty (CoFlowSessionStatus.value status)
  | None => "Error: Unrecognized status code " +:+ pretty code +:+ "."
  end.

Definition bearer (api_key : string) : list (string * string) :=
  [("Authorization", "Bearer " +:+ api_key)].

(** [f"{response.text}: {lookup_status_code(response.status_code)}"] *)
Definition status_error_text (response : Response.t) : M string :=
  env ← ask;
  mret (Response.text response +:+ ": "
        +:+ lookup_status_code (codes_dict env) (Response.status_code response)).

(** ** class SteadyState *)

Module SteadyState.

Record t := { steady_state_url : string; api_key : string }.

(** The [while not done] loop of [run]: [done] is set, and the loop left, by
    the terminal branch. *)
Fixpoint run_poll (fuel : nat) (self : t) (headers : list (string * string))
    : M unit :=
  match fuel with
  | O => out_of_fuel
  | S fuel' =>
      response ← requests.get (steady_state_url self +:+ "/run") headers;
      if negb (Response.status_code response =? requests.codes_OK) then
        debug_print (Text (pretty (Response.status_code response)));;
        error_text ← status_error_text response;
        raise (SessionError error_text)
      else
        status ← requests.Response_json response;
        status_code ← getitem key_status "status" status;
        status_msg ← getitem key_message "message" status;
        print (Text status_code);;
        if String.eqb status_code "Succeeded" || String.eqb status_code "Failed"
        then print (Text status_msg)
        else time.sleep 1;; run_poll fuel' self headers
  end.

Definition run (fuel : nat) (self : t) (values : Body) : M unit :=
  let headers := bearer (api_key self) in
  response ← requests.post (steady_state_url self +:+ "/run") values headers;
  if negb (Response.status_code response =? requests.codes_ACCEPTED) then
    error_text ← status_error_text response;
    raise (SessionError error_text)
  else
    print (Text (Response.text response));;
    run_poll fuel self headers.

Definition query (self : t) (request : Body) : M JsonObject :=
  let headers := bearer (api_key self) in
  response ← requests.post (steady_state_url self +:+ "/query") request headers;
  if negb (Response.status_code response =? requests.codes_OK) then
    error_text ← status_error_text response;
    debug_print (Text error_text);;
    raise (SessionError error_text)
  else requests.Response_json response.

End SteadyState.

(** ** class CoFlow *)

Module CoFlow.

Record t := { url : string; api_key : string }.

Definition create_init_request (self : t) (path : string) : M InitRequest :=
  extracted ← attempt (
    env ← ask;
    pathAsUrl ← match urllib.urlsplit (urllib_checks env) path with
                | inr split => mret split
                | inl msg => raise (ValueError msg)
                end;
    let components := Str.split "/" (urllib.path pathAsUrl) in
    let repo := urllib.netloc pathAsUrl in
    project ← list_getitem components 1;
    study ← list_getitem components 2;
    target_case ← list_getitem components 3;
    mret (repo, project, study, target_case));
  match extracted with
  | inl ex =>
      print (Text ("Exception while extracting repo/project/study: "
                   +:+ class_name ex +:+ " - " +:+ exn_str ex));;
      raise ex
  | inr (repo, project, study, target_case) =>
      mret {| initializationInfo :=
                {| repositoryName := repo;
                   projectName := project;
                   studyName := study |};
              editableInfo :=
                {| systemOfUnits := "SI"; caseName := target_case |} |}
  end.

Definition _close_state_state_session (self : t) (session_url : string)
    : M unit :=
  let headers := bearer (api_key self) in
  response ← requests.delete session_url headers;
  codes ← requests.Response_codes response;
  ok ← requests.codes_attr codes "OK";
  if negb (Response.status_code response =? ok)
  then print (Text ("<Response [" +:+ pretty (Response.status_code response) +:+ "]>"))
  else mret tt.

(** The [while True] loop of [open_steady_state]. *)
Fixpoint poll_status (fuel : nat) (self : t) (location : option string)
    (headers : list (string * string)) : M unit :=
  match fuel with
  | O => out_of_fuel
  | S fuel' =>
      status_url ← str_add (url self) location;
      response ← requests.get status_url headers;
      if negb (Response.status_code response =? requests.codes_OK) then
        env ← ask;
        raise (SessionError
                 ("Cannot get session status: "
                  +:+ lookup_status_code (codes_dict env) (Response.status_code response)))
      else
        body ← requests.Response_json response;
        coflow_status ← getitem key_statusCode "statusCode" body;
        if CoFlowSessionStatus.eq_int CoFlowSessionStatus.Pending coflow_status then
          print (Text "Provisioning compute...");;
          time.sleep 1;;
          poll_status fuel' self location headers
        else if CoFlowSessionStatus.eq_int CoFlowSessionStatus.Running coflow_status then
          mret tt
        else if CoFlowSessionStatus.eq_int CoFlowSessionStatus.Failed coflow_status then
          raise (CoFlowError ("Failed to create session: "
                              +:+ lookup_coflow_status_code coflow_status))
        else
          raise (CoFlowError ("Unknown error: "
                              +:+ lookup_coflow_status_code coflow_status))
  end.

(** [location.replace("/status", "")] *)
Definition location_replace (location : option string) : M string :=
  match location with
  | Some location => mret (Str.replace "/status" "" location)
  | None => raise (AttributeError
                     "'NoneType' object has no attribute 'replace'")
  end.

Definition str_of_location (location : option string) : string :=
  match location with Some location => location | None => "None" end.

(** What [open_steady_state] does once the session is Running. *)
Definition initialize (self : t) (path : string) (location : option string)
    (headers : list (string * string)) : M SteadyState.t :=
  session_path ← location_replace location;
  let ss_url := url self +:+ session_path +:+ "/current/api/v1/steady-state" in
  print (Text "Initializing steady state model...");;
  time.sleep 3;;
  init_request ← create_init_request self path;
  let session_url := ss_url +:+ "/session" in
  debug_print (Text session_url);;
  debug_print (JsonDumps init_request);;
  debug_print (DictRepr init_request);;
  response ← requests.post session_url (InitBody init_request) headers;
  debug_print (Text (pretty (Response.status_code response)));;
  if negb (Response.status_code response =? requests.codes_CREATED) then
    _close_state_state_session self session_url;;
    debug_print (Text ("<Response [" +:+ pretty (Response.status_code response) +:+ "]>"));;
    env ← ask;
    raise (SessionError
             ("Failed to initialize steady state model: "
              +:+ lookup_status_code (codes_dict env) (Response.status_code response)))
  else
    print (Text "Initialization complete");;
    mret {| SteadyState.steady_state_url := ss_url;
            SteadyState.api_key := api_key self |}.

Definition open_steady_state (fuel : nat) (self : t) (path : string)
    (cores mem : Z) : M SteadyState.t :=
  emit (Call (OpenSteadyState path));;
  print (Text (url self +:+ "/sessions"));;
  let session_request := SessionRequest cores mem in
  let headers := bearer (api_key self) in
  response ← requests.post (url self +:+ "/sessions") session_request headers;
  (if (Response.status_code response =? requests.codes_UNAUTHORIZED)
      || (Response.status_code response =? 405)
   then raise (AuthError "401 UNAUTHORIZED error: try updating your API Key")
   else if negb (Response.status_code response =? requests.codes_ACCEPTED) then
     error_text ← status_error_text response;
     debug_print (Text error_text);;
     raise (SessionError ("Failed to create steady state session: " +:+ error_text))
   else mret tt);;
  let location := Response.headers response !! "Location" in
  print (Text ("Location: " +:+ str_of_location location));;
  poll_status fuel self location headers;;
  initialize self path location headers.

Definition close_steady_state (self : t) (ss : SteadyState.t) : M unit :=
  emit (Call (CloseSteadyState (SteadyState.steady_state_url ss)));;
  let url := SteadyState.steady_state_url ss +:+ "/session" in
  debug_print (Text url);;
  let headers := bearer (api_key self) in
  response ← requests.delete url headers;
  if negb (Response.status_code response =? requests.codes_ACCEPTED) then
    debug_print (Text (pretty (Response.status_code response)));;
    error_text ← status_error_text response;
    raise (SessionError error_text)
  else print (Text "Steady State session closed.").

End CoFlow.

(** ** class SteadyStateModel *)

Module SteadyStateModel.

(** [input_defs] and [output_defs] are dicts from alias to definition; they
    are kept as the list [.items()] enumerates, in insertion order. *)
Record t := {
  client : CoFlow.t;
  model_path : string;
  input_defs : list (string * PropertyDef);
  output_defs : list (string * PropertyDef)
}.

(** The first loop of [run], over [self.input_defs.items()]. *)
Fixpoint input_payload (items : list (string * PropertyDef))
    (input_values : gmap string Value)
    (input_prop_payload : list PropertyValue) : Exn + list PropertyValue :=
  match items with
  | [] => inr input_prop_payload
  | (alias, prop) :: items' =>
      match input_values !! alias with
      | None => inl (KeyError alias)
      | Some input_value =>
          let payload := {| propertyPath := prop_path prop;
                            unit_ := prop_unit prop;
                            value := input_value |} in
          input_payload items' input_values (input_prop_payload ++ [payload])
      end
  end.

(** The second loop, over [self.output_defs.items()]: the query payload and
    the lookup from path to alias and definition. *)
Fixpoint output_payload (items : list (string * PropertyDef))
    (output_prop_payload : list PropertyQuery)
    (output_lookup : gmap string (string * PropertyDef))
    : list PropertyQuery * gmap string (string * PropertyDef) :=
  match items with
  | [] => (output_prop_payload, output_lookup)
  | (key, prop) :: items' =>
      let payload := {| query_propertyPath := prop_path prop;
                        query_unit := prop_unit prop |} in
      output_payload items' (output_prop_payload ++ [payload])
                     (<[prop_path prop := (key, prop)]> output_lookup)
  end.

(** The loop over [model_output["properties"]] that fills [output]. *)
Fixpoint translate (output_lookup : gmap string (string * PropertyDef))
    (results : list PropertyValue) (output : gmap string Value)
    : Exn + gmap string Value :=
  match results with
  | [] => inr output
  | output_value :: results' =>
      let path := propertyPath output_value in
      match output_lookup !! path with
      | None => inl (KeyError path)
      | Some (alias, prop) =>
          translate output_lookup results'
                    (<[alias := value output_value]> output)
      end
  end.

(** The name [model] in the [finally] clause: bound only if the assignment
    in the [try] body was reached. *)
Definition local_model (model : option SteadyState.t) : M SteadyState.t :=
  match model with
  | Some ss => mret ss
  | None => raise (UnboundLocalError "model")
  end.

(** The body of the [try], after [model] is bound. *)
Definition run_model (fuel : nat) (model : SteadyState.t)
    (input_prop_payload : list PropertyValue)
    (output_prop_payload : list PropertyQuery)
    (output_lookup : gmap string (string * PropertyDef))
    : M (gmap string Value) :=
  SteadyState.run fuel model (RunBody input_prop_payload);;
  model_output ← SteadyState.query model (QueryBody output_prop_payload);
  results ← getitem key_properties "properties" model_output;
  lift (translate output_lookup results ∅).

Definition run (fuel : nat) (self : t) (input_values : gmap string Value)
    : M (gmap string Value) :=
  input_prop_payload ← lift (input_payload (input_defs self) input_values []);
  let '(output_prop_payload, output_lookup) :=
    output_payload (output_defs self) [] ∅ in
  (* try: *)
  opened ← attempt (CoFlow.open_steady_state fuel (client self)
                                             (model_path self) 1 1024);
  let model := match opened with inr ss => Some ss | inl _ => None end in
  result ← match opened with
           | inl ex => mret (inl ex)
           | inr ss => attempt (run_model fuel ss input_prop_payload
                                          output_prop_payload output_lookup)
           end;
  (* finally: *)
  ss ← local_model model;
  CoFlow.close_steady_state (client self) ss;;
  lift result.

End SteadyStateModel.

(** ** Reading the log *)

Definition calls (events : list Event) : list ClientCall :=
  omap (fun ev => match ev with Call what => Some what | _ => None end) events.

Definition close_calls (events : list Event) : list string :=
  omap (fun what => match what with
                    | CloseSteadyState ss_url => Some ss_url
                    | OpenSteadyState _ => None
                    end) (calls events).

Definition sleeps (events : list Event) : list Z :=
  omap (fun ev => match ev with Sleep seconds => Some seconds | _ => None end)
       events.

Definition requests_of (method : Method) (events : list Event) : list string :=
  omap (fun ev => match ev with
                  | Request m url _ _ =>
                      match m, method with
                      | POST, POST | GET, GET | DELETE, DELETE => Some url
                      | _, _ => None
                      end
                  | _ => None
                  end) events.

(** A computation is [silent] when it only appends to the log and what it
    appends has no [Call] entry: it enters neither [open_steady_state] nor
    [close_steady_state]. *)
Definition silent {A} (m : M A) : Prop :=
  forall env s, exists events,
    log (m env s).2 = log s ++ events /\ calls events = [].

(** ** A scripted service, for running the client on concrete executions *)

Definition reply (code : Z) (obj : option JsonObject) : Reply :=
  Responds {| Response.status_code := code; Response.text := "";
              Response.headers := ∅; Response.json := obj |}.

Definition created_at (location : string) : Reply :=
  Responds {| Response.status_code := 202; Response.text := "";
              Response.headers := {[ "Location" := location ]};
              Response.json := None |}.

Definition session_status (code : Z) : Reply :=
  reply 200 (Some {| key_statusCode := Some code; key_status := None;
                     key_message := None; key_properties := None |}).

Definition run_status (status msg : string) : Reply :=
  reply 200 (Some {| key_statusCode := None; key_status := Some status;
                     key_message := Some msg; key_properties := None |}).

Definition query_result (results : list PropertyValue) : Reply :=
  reply 200 (Some {| key_statusCode := None; key_status := None;
                     key_message := None; key_properties := Some results |}).

(** The service answers from [script], then keeps repeating [last]. *)
Definition scripted (script : list Reply) (last : Reply) : nat -> Reply :=
  fun n => default last (script !! n).

Definition no_checks : urllib.Checks :=
  {| urllib.check_bracketed_netloc := fun _ => None;
     urllib.check_nfkc_netloc := fun _ => None |}.

Definition some_codes : list (string * Z) :=
  [("ok", 200); ("OK", 200); ("created", 201); ("CREATED", 201);
   ("accepted", 202); ("ACCEPTED", 202); ("unauthorized", 401);
   ("UNAUTHORIZED", 401); ("internal_server_error", 500)].

Definition world (script : list Reply) (last : Reply) : Env :=
  {| transport := scripted script last;
     codes_dict := some_codes;
     urllib_checks := no_checks;
     debug_output := false |}.

Definition start : State := {| sent := O; log := [] |}.

Definition tenant : CoFlow.t :=
  {| CoFlow.url := "https://tenant/api"; CoFlow.api_key := "k" |}.

Definition bhp_path : string := "Networks/Well Model/NetworkObjects/bhp/Outlet/Pressure".
Definition pipe_path : string := "Networks/Well Model/NetworkObjects/Pipe/Outlet/Pressure".

Definition bhp_model : SteadyStateModel.t :=
  {| SteadyStateModel.client := tenant;
     SteadyStateModel.model_path := "//repo/projA/studyB/caseC";
     SteadyStateModel.input_defs :=
       [("outlet_pressure", {| prop_path := pipe_path; prop_unit := "psi" |})];
     SteadyStateModel.output_defs :=
       [("bhp", {| prop_path := bhp_path; prop_unit := "psi" |})] |}.

Definition bhp_inputs : gmap string Value :=
  {[ "outlet_pressure" := Float 2667761 (-3) ]}.

Definition bhp_result : PropertyValue :=
  {| propertyPath := bhp_path; unit_ := "psi"; value := Float 123456 (-2) |}.

Definition happy_script : list Reply :=
  [ created_at "/sessions/7/status";
    session_status 100; session_status 100; session_status 200;
    reply 201 None;
    reply 202 None; run_status "Running" ""; run_status "Succeeded" "done";
    query_result [bhp_result];
    reply 202 None ].

Definition opened_script : list Reply :=
  [ created_at "/sessions/7/status"; session_status 200; reply 201 None ].

Definition bhp_session : SteadyState.t :=
  {| SteadyState.steady_state_url :=
       "https://tenant/api/sessions/7/current/api/v1/steady-state";
     SteadyState.api_key := "k" |}.

(** The run request is refused; the query is refused. *)
Definition run_refused_script : list Reply :=
  opened_script ++ [ reply 500 None; reply 202 None ].

Definition query_refused_script : list Reply :=
  opened_script
  ++ [ reply 202 None; run_status "Failed" "diverged";
       reply 500 None; reply 202 None ].

(** The session request is refused for want of a valid key. *)
Definition unauthorized_script : list Reply := [ reply 401 None ].

(** The session comes up but the model cannot be initialised; the clean-up
    request is answered with 200. *)
Definition init_refused_script : list Reply :=
  [ created_at "/sessions/7/status"; session_status 200;
    reply 500 None; reply 200 None ].

(** The session request is accepted, without a Location header. *)
Definition no_location_script : list Reply := [ reply 202 None ].

(** The query answers with no entry at all. *)
Definition empty_result_script : list Reply :=
  opened_script
  ++ [ reply 202 None; run_status "Succeeded" "done";
       query_result []; reply 202 None ].

(** Two aliases for one path, and a service that answers every entry of the
    query. *)
Definition twin_model : SteadyStateModel.t :=
  {| SteadyStateModel.client := tenant;
     SteadyStateModel.model_path := "//repo/projA/studyB/caseC";
     SteadyStateModel.input_defs := [];
     SteadyStateModel.output_defs :=
       [("bhp", {| prop_path := bhp_path; prop_unit := "psi" |});
        ("pressure", {| prop_path := bhp_path; prop_unit := "psi" |})] |}.

Definition twin_script : list Reply :=
  opened_script
  ++ [ reply 202 None; run_status "Succeeded" "done";
       query_result [bhp_result; bhp_result]; reply 202 None ].

(** The query answers with an entry nobody asked for. *)
Definition stray_result : PropertyValue :=
  {| propertyPath := pipe_path; unit_ := "psi"; value := Float 1 0 |}.

Definition stray_script : list Reply :=
  opened_script
  ++ [ reply 202 None; run_status "Succeeded" "done";
       query_result [bhp_result; stray_result]; reply 202 None ].

Definition offline : Reply := Fails "connection refused".

(** ** What the service reports

    The reply is a 200 whose body has the given [statusCode], respectively the
    given [status] and [message]. *)

Definition reports_session_status (r : Reply) (code : Z) : Prop :=
  exists response obj,
    r = Responds response
    /\ Response.status_code response = 200
    /\ Response.json response = Some obj
    /\ key_statusCode obj = Some code.

Definition reports_run_status (r : Reply) (status msg : string) : Prop :=
  exists response obj,
    r = Responds response
    /\ Response.status_code response = 200
    /\ Response.json response = Some obj
    /\ key_status obj = Some status
    /\ key_message obj = Some msg.

(** The events of one turn of the session-status loop that found Pending. *)
Definition provisioning_cycle (self : CoFlow.t) (location : string)
    (headers : list (string * string)) : list Event :=
  [Request GET (CoFlow.url self +:+ location) headers None;
   Print (Text "Provisioning compute...");
   Sleep 1].

(** How the session-status loop ends on a status code other than Pending. *)
Definition poll_status_end (code : Z) : Outcome unit :=
  if code =? 200 then Returned tt
  else if code =? 300 then
    Raised (CoFlowError ("Failed to create session: "
                         +:+ lookup_coflow_status_code code))
  else
    Raised (CoFlowError ("Unknown error: " +:+ lookup_coflow_status_code code)).

(** The test that ends the run-status loop. *)
Definition terminal (status : string) : bool :=
  String.eqb status "Succeeded" || String.eqb status "Failed".

(** The events of one turn of the run-status loop on a status that is not
    terminal. *)
Definition run_poll_cycle (self : SteadyState.t)
    (headers : list (string * string)) (status : string) : list Event :=
  [Request GET (SteadyState.steady_state_url self +:+ "/run") headers None;
   Print (Text status);
   Sleep 1].

(** From request number [first] on, the service reports the statuses
    [pending], none of them terminal, and then [final] with [msg]. *)
Definition reports_run (env : Env) (first : nat) (pending : list string)
    (final msg : string) : Prop :=
  (forall i status, pending !! i = Some status ->
     terminal status = false
     /\ exists m, reports_run_status (transport env (first + i)%nat) status m)
  /\ reports_run_status (transport env (first + length pending)%nat) final msg.

(** What [create_init_request] prints before it raises [ex] again. *)
Definition extraction_report (ex : Exn) : Event :=
  Print (Text ("Exception while extracting repo/project/study: "
               +:+ class_name ex +:+ " - " +:+ exn_str ex)).

(** The exception the [try] block of [create_init_request] ends with on a
    path it cannot take apart: the one [urlsplit] raises, or the one the
    subscript of [components] raises. *)
Definition extraction_error (lib : urllib.Checks) (path : string) : Exn :=
  match urllib.urlsplit lib path with
  | inl msg => ValueError msg
  | inr _ => IndexError "list index out of range"
  end.

(** The aliases and the paths that [output_defs] declares. *)
Definition declared_aliases (self : SteadyStateModel.t) : gset string :=
  list_to_set (map fst (SteadyStateModel.output_defs self)).

Definition declared_paths (self : SteadyStateModel.t) : list string :=
  map (fun item => prop_path (snd item)) (SteadyStateModel.output_defs self).

(** ** The rest of the client *)

(** The constructor of [SteadyState], called with positional arguments: the
    dataclass has two fields without default, so it needs both (the messages
    are those of CPython 3.10 and later). *)
Definition SteadyState_new (arguments : list string) : M SteadyState.t :=
  match arguments with
  | [] =>
      raise (TypeError
               "SteadyState.__init__() missing 2 required positional arguments: 'steady_state_url' and 'api_key'")
  | [_] =>
      raise (TypeError
               "SteadyState.__init__() missing 1 required positional argument: 'api_key'")
  | [steady_state_url; api_key] =>
      mret {| SteadyState.steady_state_url := steady_state_url;
              SteadyState.api_key := api_key |}
  | _ =>
      raise (TypeError
               ("SteadyState.__init__() takes 3 positional arguments but "
                +:+ pretty (S (length arguments)) +:+ " were given"))
  end.

(** [CoFlow.open_steady_state_local] *)
Definition open_steady_state_local (self : CoFlow.t) (path : string)
    : M SteadyState.t :=
  init_request ← CoFlow.create_init_request self path;
  let headers := bearer (CoFlow.api_key self) in
  response ← requests.post "http://localhost:12500/api/v1/steady-state/session"
                           (InitBody init_request) headers;
  if negb (Response.status_code response =? requests.codes_CREATED) then
    error_text ← status_error_text response;
    raise (SessionError error_text)
  else SteadyState_new ["http://localhost:12500/api/v1/steady-state"].

(** ** Vocabulary of the further properties *)

(** A model with a second input, a service that refuses to close the
    session, and services that keep reporting the same status. *)
Definition rate_model : SteadyStateModel.t :=
  {| SteadyStateModel.client := tenant;
     SteadyStateModel.model_path := "//repo/projA/studyB/caseC";
     SteadyStateModel.input_defs :=
       [("outlet_pressure", {| prop_path := pipe_path; prop_unit := "psi" |});
        ("gas_rate",
         {| prop_path := "Networks/Well Model/NetworkObjects/Gas/Outlet/Gas Rate SC Inst";
            prop_unit := "MMSCF/day" |})];
     SteadyStateModel.output_defs :=
       [("bhp", {| prop_path := bhp_path; prop_unit := "psi" |})] |}.

Definition close_refused_script : list Reply :=
  opened_script
  ++ [ reply 202 None; run_status "Succeeded" "done";
       query_result [bhp_result]; reply 500 None ].

Definition always_pending : Env := world [] (session_status 100).

Definition always_running : Env := world [] (run_status "Running" "").

(** The entry of the run payload that an input definition gives rise to. *)
Definition input_entry (input_values : gmap string Value)
    (item : string * PropertyDef) (entry : PropertyValue) : Prop :=
  propertyPath entry = prop_path (snd item)
  /\ unit_ entry = prop_unit (snd item)
  /\ input_values !! fst item = Some (value entry).

(** The entry of the query payload that an output definition gives rise to. *)
Definition query_entry (item : string * PropertyDef) : PropertyQuery :=
  {| query_propertyPath := prop_path (snd item);
     query_unit := prop_unit (snd item) |}.

(** The alias under which an entry of the query result is stored. *)
Definition result_alias (output_lookup : gmap string (string * PropertyDef))
    (entry : PropertyValue) : option string :=
  fst <$> output_lookup !! propertyPath entry.

(** The request carries the bearer token of [key]. *)
Definition authorized (key : string) (ev : Event) : Prop :=
  match ev with
  | Request _ _ headers _ => headers = bearer key
  | _ => True
  end.

(** A computation only appends to the log, and only events that satisfy
    [P]. *)
Definition emits {A} (P : Event -> Prop) (m : M A) : Prop :=
  forall env s, exists events,
    log (m env s).2 = log s ++ events /\ Forall P events.

(** Whatever a computation returns satisfies [Q]. *)
Definition returns {A} (Q : A -> Prop) (m : M A) : Prop :=
  forall env s a s', m env s = (Returned a, s') -> Q a.

(** The events other than printing: requests, sleeps and calls. *)
Definition effects (events : list Event) : list Event :=
  List.filter (fun ev => match ev with Print _ => false | _ => true end) events.

(** Two environments that differ at most in [debug_output], two states that
    differ at most in what was printed, and two computations that cannot be
    told apart on such environments and states but by what they print. *)
Definition agree (env1 env2 : Env) : Prop :=
  transport env1 = transport env2
  /\ codes_dict env1 = codes_dict env2
  /\ urllib_checks env1 = urllib_checks env2.

Definition alike (s1 s2 : State) : Prop :=
  sent s1 = sent s2 /\ effects (log s1) = effects (log s2).

Definition related {A} (m1 m2 : M A) : Prop :=
  forall env1 env2 s1 s2,
    agree env1 env2 -> alike s1 s2 ->
    (m1 env1 s1).1 = (m2 env2 s2).1
    /\ alike (m1 env1 s1).2 (m2 env2 s2).2.

Definition with_debug (flag : bool) (env : Env) : Env :=
  {| transport := transport env;
     codes_dict := codes_dict env;
     urllib_checks := urllib_checks env;
     debug_output := flag |}.

(** * Properties of the client *)

(** ** The monad *)

Lemma bind_run {A B} (m : M A) (k : A -> M B) env s :
  (m ≫= k) env s =
  match m env s with
  | (Returned a, s') => k a env s'
  | (Raised ex, s') => (Raised ex, s')
  | (Unfinished, s') => (Unfinished, s')
  end.
Proof. reflexivity. Qed.

(** ** Steps that enter neither [open_steady_state] nor [close_steady_state] *)

Lemma calls_app (l1 l2 : list Event) : calls (l1 ++ l2) = calls l1 ++ calls l2.
Proof. apply omap_app. Qed.

Lemma silent_ret {A} (a : A) : silent (mret a).
Proof. intros env s. exists []. rewrite app_nil_r. done. Qed.

Lemma silent_raise {A} ex : silent (@raise A ex).
Proof. intros env s. exists []. rewrite app_nil_r. done. Qed.

Lemma silent_out_of_fuel {A} : silent (@out_of_fuel A).
Proof. intros env s. exists []. rewrite app_nil_r. done. Qed.

Lemma silent_ask : silent ask.
Proof. intros env s. exists []. rewrite app_nil_r. done. Qed.

Lemma silent_lift {A} (r : Exn + A) : silent (lift r).
Proof. destruct r; [apply silent_raise | apply silent_ret]. Qed.

Lemma silent_bind {A B} (m : M A) (k : A -> M B) :
  silent m -> (forall a, silent (k a)) -> silent (m ≫= k).
Proof.
  intros Hm Hk env s. rewrite bind_run.
  destruct (Hm env s) as (ev1 & E1 & C1).
  destruct (m env s) as [[a | ex |] s1]; simpl in E1.
  - destruct (Hk a env s1) as (ev2 & E2 & C2).
    exists (ev1 ++ ev2). rewrite E2, E1, calls_app, C1, C2, app_assoc. done.
  - exists ev1. done.
  - exists ev1. done.
Qed.

Lemma silent_attempt {A} (m : M A) : silent m -> silent (attempt m).
Proof.
  intros Hm env s. destruct (Hm env s) as (ev & E & C). exists ev.
  unfold attempt. destruct (m env s) as [[a | ex |] s1]; done.
Qed.

Lemma silent_print what : silent (print what).
Proof. intros env s. exists [Print what]. done. Qed.

Lemma silent_sleep seconds : silent (time.sleep seconds).
Proof. intros env s. exists [Sleep seconds]. done. Qed.

Lemma silent_request method url body headers :
  silent (requests.request method url body headers).
Proof.
  intros env s. exists [Request method url headers body].
  unfold requests.request. destruct (transport env (sent s)); done.
Qed.

Create HintDb silence.
#[local] Hint Resolve silent_ret silent_raise silent_out_of_fuel silent_ask
  silent_lift silent_print silent_sleep silent_request : silence.

(** Walks through a computation, one bind or one branch at a time. *)
Ltac silence :=
  repeat first
    [ solve [ auto with silence ]
    | progress cbv zeta
    | apply silent_bind; [ | intros ? ]
    | apply silent_attempt
    | case_match ].

Lemma silent_debug_print what : silent (debug_print what).
Proof. unfold debug_print. silence. Qed.

Lemma silent_get url headers : silent (requests.get url headers).
Proof. apply silent_request. Qed.

Lemma silent_post url json headers : silent (requests.post url json headers).
Proof. apply silent_request. Qed.

Lemma silent_delete url headers : silent (requests.delete url headers).
Proof. apply silent_request. Qed.

Lemma silent_Response_json response : silent (requests.Response_json response).
Proof. unfold requests.Response_json. silence. Qed.

Lemma silent_getitem {A} (field : JsonObject -> option A) key obj :
  silent (getitem field key obj).
Proof. unfold getitem. silence. Qed.

Lemma silent_list_getitem l i : silent (list_getitem l i).
Proof. unfold list_getitem. silence. Qed.

Lemma silent_str_add a b : silent (str_add a b).
Proof. unfold str_add. silence. Qed.

Lemma silent_status_error_text response : silent (status_error_text response).
Proof. unfold status_error_text. silence. Qed.

#[local] Hint Resolve silent_debug_print silent_get silent_post silent_delete
  silent_Response_json silent_getitem silent_list_getitem silent_str_add
  silent_status_error_text : silence.

Lemma silent_run_poll fuel self headers :
  silent (SteadyState.run_poll fuel self headers).
Proof. induction fuel as [| fuel IH]; simpl; silence. Qed.

Lemma silent_SteadyState_run fuel self values :
  silent (SteadyState.run fuel self values).
Proof. unfold SteadyState.run. pose proof silent_run_poll. silence. Qed.

Lemma silent_query self request : silent (SteadyState.query self request).
Proof. unfold SteadyState.query. silence. Qed.

Lemma silent_create_init_request self path :
  silent (CoFlow.create_init_request self path).
Proof. unfold CoFlow.create_init_request. silence. Qed.

Lemma silent_close_state_state_session self session_url :
  silent (CoFlow._close_state_state_session self session_url).
Proof.
  unfold CoFlow._close_state_state_session, requests.Response_codes,
    requests.codes_attr.
  silence.
Qed.

Lemma silent_poll_status fuel self location headers :
  silent (CoFlow.poll_status fuel self location headers).
Proof. induction fuel as [| fuel IH]; simpl; silence. Qed.

#[local] Hint Resolve silent_run_poll silent_SteadyState_run silent_query
  silent_create_init_request silent_close_state_state_session
  silent_poll_status : silence.

Lemma silent_initialize self path location headers :
  silent (CoFlow.initialize self path location headers).
Proof. unfold CoFlow.initialize, CoFlow.location_replace. silence. Qed.

Lemma silent_run_model fuel model ip op lookup :
  silent (SteadyStateModel.run_model fuel model ip op lookup).
Proof. unfold SteadyStateModel.run_model. silence. Qed.

#[local] Hint Resolve silent_initialize silent_run_model : silence.

(** ** Sessions are bracketed by one open and one close *)

Lemma calls_after_entry {A} (what : ClientCall) (k : M A) env s :
  silent k ->
  exists events,
    log ((emit (Call what) ;; k) env s).2 = log s ++ events
    /\ calls events = [what].
Proof.
  intros Hk. rewrite bind_run. simpl.
  destruct (Hk env {| sent := sent s; log := log s ++ [Call what] |})
    as (events & E & C).
  exists (Call what :: events). rewrite E. simpl. rewrite C.
  split; [ by rewrite <- app_assoc | done ].
Qed.

Lemma open_steady_state_calls fuel self path cores mem env s :
  exists events,
    log (CoFlow.open_steady_state fuel self path cores mem env s).2
      = log s ++ events
    /\ calls events = [OpenSteadyState path].
Proof.
  unfold CoFlow.open_steady_state. apply calls_after_entry. silence.
Qed.

Lemma close_steady_state_calls self ss env s :
  exists events,
    log (CoFlow.close_steady_state self ss env s).2 = log s ++ events
    /\ calls events = [CloseSteadyState (SteadyState.steady_state_url ss)].
Proof.
  unfold CoFlow.close_steady_state. apply calls_after_entry. silence.
Qed.

Lemma close_steady_state_finishes self ss env s :
  (CoFlow.close_steady_state self ss env s).1 <> Unfinished.
Proof.
  cbv [CoFlow.close_steady_state debug_print status_error_text print
       requests.delete requests.request mbind M_bind mret M_ret ask emit raise].
  repeat (case_match; simplify_eq/=; try done).
Qed.

Lemma run_after_open fuel self input_values env s payload :
  SteadyStateModel.input_payload
    (SteadyStateModel.input_defs self) input_values [] = inr payload ->
  SteadyStateModel.run fuel self input_values env s =
  let '(output_prop_payload, output_lookup) :=
    SteadyStateModel.output_payload (SteadyStateModel.output_defs self) [] ∅ in
  match CoFlow.open_steady_state fuel (SteadyStateModel.client self)
          (SteadyStateModel.model_path self) 1 1024 env s with
  | (Returned ss, s1) =>
      match SteadyStateModel.run_model fuel ss payload output_prop_payload
              output_lookup env s1 with
      | (Unfinished, s2) => (Unfinished, s2)
      | (result, s2) =>
          match CoFlow.close_steady_state (SteadyStateModel.client self) ss
                  env s2 with
          | (Returned _, s3) => (result, s3)
          | (Raised ex, s3) => (Raised ex, s3)
          | (Unfinished, s3) => (Unfinished, s3)
          end
      end
  | (Raised ex, s1) => (Raised (UnboundLocalError "model"), s1)
  | (Unfinished, s1) => (Unfinished, s1)
  end.
Proof.
  intros Hin. unfold SteadyStateModel.run. rewrite Hin.
  destruct (SteadyStateModel.output_payload _ _ _) as [op lookup].
  cbv [lift attempt mbind M_bind mret M_ret raise SteadyStateModel.local_model].
  destruct (CoFlow.open_steady_state _ _ _ _ _ env s) as [[ss | ex |] s1];
    try reflexivity.
  destruct (SteadyStateModel.run_model _ _ _ _ _ env s1) as [[out | ex |] s2];
    try reflexivity;
    destruct (CoFlow.close_steady_state _ _ env s2) as [[[] | ex' |] s3];
    reflexivity.
Qed.

(** C1. Whenever [open_steady_state] returned a session to
    [SteadyStateModel.run] and [run] came to an end, by returning or by
    raising, the events of that execution contain exactly one entry into
    [close_steady_state], for that session, after the one entry into
    [open_steady_state]. *)
Theorem run_closes_session_once fuel self input_values env s payload ss s1 :
  SteadyStateModel.input_payload
    (SteadyStateModel.input_defs self) input_values [] = inr payload ->
  CoFlow.open_steady_state fuel (SteadyStateModel.client self)
    (SteadyStateModel.model_path self) 1 1024 env s = (Returned ss, s1) ->
  (SteadyStateModel.run fuel self input_values env s).1 <> Unfinished ->
  exists events,
    log (SteadyStateModel.run fuel self input_values env s).2
      = log s ++ events
    /\ calls events = [OpenSteadyState (SteadyStateModel.model_path self);
                       CloseSteadyState (SteadyState.steady_state_url ss)]
    /\ close_calls events = [SteadyState.steady_state_url ss].
Proof.
  intros Hin Hopen. rewrite (run_after_open _ _ _ _ _ _ Hin).
  destruct (SteadyStateModel.output_payload _ _ _) as [op lookup].
  destruct (open_steady_state_calls fuel (SteadyStateModel.client self)
              (SteadyStateModel.model_path self) 1 1024 env s)
    as (ev1 & E1 & C1).
  rewrite Hopen in *. simpl in E1.
  destruct (silent_run_model fuel ss payload op lookup env s1)
    as (ev2 & E2 & C2).
  destruct (close_steady_state_calls (SteadyStateModel.client self) ss env
              (SteadyStateModel.run_model fuel ss payload op lookup env s1).2)
    as (ev3 & E3 & C3).
  destruct (SteadyStateModel.run_model _ _ _ _ _ env s1) as [[out | ex |] s2];
    simpl in *; [ | | done ]; intros _;
    exists (ev1 ++ ev2 ++ ev3);
    (split; [ | unfold close_calls; rewrite !calls_app, C1, C2, C3; done ]);
    destruct (CoFlow.close_steady_state _ _ env s2) as [[[] | ex' |] s3];
    simpl in *; rewrite E3, E2, E1, <- !app_assoc; done.
Qed.

(** C9. Whenever [open_steady_state] raises inside [SteadyStateModel.run],
    the [finally] clause finds [model] unbound: [run] raises
    [UnboundLocalError] in the state [open_steady_state] left, and the events
    of the execution contain no entry into [close_steady_state]. *)
Theorem run_unbound_model_when_open_raises
    fuel self input_values env s payload ex s1 :
  SteadyStateModel.input_payload
    (SteadyStateModel.input_defs self) input_values [] = inr payload ->
  CoFlow.open_steady_state fuel (SteadyStateModel.client self)
    (SteadyStateModel.model_path self) 1 1024 env s = (Raised ex, s1) ->
  SteadyStateModel.run fuel self input_values env s
    = (Raised (UnboundLocalError "model"), s1)
  /\ exists events, log s1 = log s ++ events /\ close_calls events = [].
Proof.
  intros Hin Hopen. rewrite (run_after_open _ _ _ _ _ _ Hin).
  destruct (SteadyStateModel.output_payload _ _ _) as [op lookup].
  destruct (open_steady_state_calls fuel (SteadyStateModel.client self)
              (SteadyStateModel.model_path self) 1 1024 env s)
    as (ev1 & E1 & C1).
  rewrite Hopen in *. split; [ done | ].
  exists ev1. split; [ done | ]. unfold close_calls. rewrite C1. done.
Qed.

(** ** The session-status loop *)

Lemma poll_status_step fuel self location headers env s code :
  reports_session_status (transport env (sent s)) code ->
  CoFlow.poll_status (S fuel) self (Some location) headers env s =
  if code =? 100
  then CoFlow.poll_status fuel self (Some location) headers env
         {| sent := S (sent s);
            log := log s ++ provisioning_cycle self location headers |}
  else (poll_status_end code,
        {| sent := S (sent s);
           log := log s ++ [Request GET (CoFlow.url self +:+ location)
                                    headers None] |}).
Proof.
  intros (response & obj & Ht & Hcode & Hjson & Hstatus).
  cbn [CoFlow.poll_status].
  cbv [str_add requests.get requests.request requests.Response_json getitem
       print time.sleep mbind M_bind mret M_ret ask emit raise].
  rewrite Ht, Hcode, Hjson, Hstatus.
  change (negb (200 =? requests.codes_OK)) with false. cbv beta iota.
  unfold CoFlowSessionStatus.eq_int, poll_status_end, provisioning_cycle.
  cbn [CoFlowSessionStatus.value sent log].
  rewrite (Z.eqb_sym 100 code), (Z.eqb_sym 200 code), (Z.eqb_sym 300 code).
  destruct (code =? 100).
  - cbn [sent log]. rewrite <- !app_assoc. reflexivity.
  - destruct (code =? 200); [ reflexivity | ].
    destruct (code =? 300); reflexivity.
Qed.

(** C5. When the first [n] polls of the session status find Pending and the
    next one finds [code], the loop goes through exactly [n] cycles of
    printing, sleeping one second and polling again, sends [n + 1] requests
    and ends on the last of them: it returns if [code] is Running, raises
    [CoFlowError] if it is Failed, and raises [CoFlowError] on any other
    code.  For Pending, Pending, Running that is two cycles. *)
Theorem poll_status_cycles n fuel self location headers env s code :
  (n < fuel)%nat ->
  (forall i, (i < n)%nat ->
     reports_session_status (transport env (sent s + i)%nat) 100) ->
  reports_session_status (transport env (sent s + n)%nat) code ->
  code <> 100 ->
  CoFlow.poll_status fuel self (Some location) headers env s =
  (poll_status_end code,
   {| sent := (sent s + n + 1)%nat;
      log := log s
             ++ concat (replicate n (provisioning_cycle self location headers))
             ++ [Request GET (CoFlow.url self +:+ location) headers None] |})
  /\ sleeps (concat (replicate n (provisioning_cycle self location headers)))
     = replicate n 1
  /\ (code = 200 -> poll_status_end code = Returned tt)
  /\ (code = 300 -> exists msg, poll_status_end code = Raised (CoFlowError msg))
  /\ (code <> 200 -> code <> 300 ->
      exists msg, poll_status_end code = Raised (CoFlowError msg)).
Proof.
  intros Hfuel Hpending Hlast Hcode.
  split; [ | split; [ | split; [ | split ] ] ].
  - revert fuel s Hfuel Hpending Hlast.
    induction n as [| n IH]; intros fuel s Hfuel Hpending Hlast;
      (destruct fuel as [| fuel]; [ lia | ]).
    + rewrite Nat.add_0_r in Hlast.
      rewrite (poll_status_step _ _ _ _ _ _ _ Hlast).
      apply Z.eqb_neq in Hcode. rewrite Hcode. simpl.
      repeat f_equal. lia.
    + assert (H0 : reports_session_status (transport env (sent s)) 100).
      { specialize (Hpending O). rewrite Nat.add_0_r in Hpending.
        apply Hpending. lia. }
      rewrite (poll_status_step _ _ _ _ _ _ _ H0). simpl (100 =? 100).
      cbv iota. rewrite IH.
      * simpl sent. simpl log. f_equal. f_equal; [ lia | ].
        simpl. rewrite <- !app_assoc. reflexivity.
      * lia.
      * intros i Hi. simpl sent.
        replace (S (sent s) + i)%nat with (sent s + S i)%nat by lia.
        apply Hpending. lia.
      * simpl sent.
        replace (S (sent s) + n)%nat with (sent s + S n)%nat by lia.
        exact Hlast.
  - clear. induction n as [| n IH]; [ reflexivity | ].
    simpl. unfold sleeps in *. simpl. rewrite IH. reflexivity.
  - intros ->. reflexivity.
  - intros ->. eexists. reflexivity.
  - intros H200 H300. unfold poll_status_end.
    apply Z.eqb_neq in H200, H300. rewrite H200, H300. eexists. reflexivity.
Qed.

(** ** The run-status loop *)

Section RunStatusLoop.

Context (self : SteadyState.t) (headers : list (string * string)) (env : Env).

Lemma run_poll_step fuel s status msg :
  reports_run_status (transport env (sent s)) status msg ->
  SteadyState.run_poll (S fuel) self headers env s =
  if terminal status
  then (Returned tt,
        {| sent := S (sent s);
           log := log s
                  ++ [Request GET (SteadyState.steady_state_url self +:+ "/run")
                              headers None;
                      Print (Text status); Print (Text msg)] |})
  else SteadyState.run_poll fuel self headers env
         {| sent := S (sent s);
            log := log s ++ run_poll_cycle self headers status |}.
Proof.
  intros (response & obj & Ht & Hcode & Hjson & Hstatus & Hmsg).
  cbn [SteadyState.run_poll].
  cbv [requests.get requests.request requests.Response_json getitem
       print time.sleep mbind M_bind mret M_ret ask emit raise].
  rewrite Ht, Hcode, Hjson, Hstatus, Hmsg.
  change (negb (200 =? requests.codes_OK)) with false. cbv beta iota.
  unfold terminal, run_poll_cycle. cbn [sent log].
  destruct (_ || _); cbn [sent log]; rewrite <- !app_assoc; reflexivity.
Qed.

Lemma run_poll_step_cases fuel s :
  (exists status msg, reports_run_status (transport env (sent s)) status msg)
  \/ (exists ex s1,
        SteadyState.run_poll (S fuel) self headers env s = (Raised ex, s1)).
Proof.
  destruct (transport env (sent s)) as [response | failure] eqn:Ht.
  - destruct (Response.status_code response =? 200) eqn:Hcode.
    + apply Z.eqb_eq in Hcode.
      destruct (Response.json response) as [obj |] eqn:Hjson.
      * destruct (key_status obj) as [status |] eqn:Hstatus.
        -- destruct (key_message obj) as [msg |] eqn:Hmsg.
           ++ left. exists status, msg, response, obj. done.
           ++ right. cbn [SteadyState.run_poll].
              cbv [requests.get requests.request requests.Response_json getitem
                   mbind M_bind mret M_ret ask emit raise].
              rewrite Ht, Hcode, Hjson, Hstatus, Hmsg.
              change (negb (200 =? requests.codes_OK)) with false.
              cbv beta iota. eauto.
        -- right. cbn [SteadyState.run_poll].
           cbv [requests.get requests.request requests.Response_json getitem
                mbind M_bind mret M_ret ask emit raise].
           rewrite Ht, Hcode, Hjson, Hstatus.
           change (negb (200 =? requests.codes_OK)) with false.
           cbv beta iota. eauto.
      * right. cbn [SteadyState.run_poll].
        cbv [requests.get requests.request requests.Response_json getitem
             mbind M_bind mret M_ret ask emit raise].
        rewrite Ht, Hcode, Hjson.
        change (negb (200 =? requests.codes_OK)) with false.
        cbv beta iota. eauto.
    + right. cbn [SteadyState.run_poll].
      cbv [requests.get requests.request debug_print status_error_text print
           mbind M_bind mret M_ret ask emit raise].
      rewrite Ht. unfold requests.codes_OK. rewrite Hcode. cbn [negb].
      destruct (debug_output env); eauto.
  - right. cbn [SteadyState.run_poll].
    cbv [requests.get requests.request mbind M_bind mret M_ret ask emit raise].
    rewrite Ht. eauto.
Qed.

Lemma terminal_spec status :
  terminal status = true <-> status = "Succeeded" \/ status = "Failed".
Proof.
  unfold terminal. rewrite orb_true_iff, !String.eqb_eq. done.
Qed.

Lemma run_poll_returns fuel s pending final msg :
  (length pending < fuel)%nat ->
  reports_run env (sent s) pending final msg ->
  terminal final = true ->
  SteadyState.run_poll fuel self headers env s =
  (Returned tt,
   {| sent := (sent s + length pending + 1)%nat;
      log := log s
             ++ flat_map (run_poll_cycle self headers) pending
             ++ [Request GET (SteadyState.steady_state_url self +:+ "/run")
                         headers None;
                 Print (Text final); Print (Text msg)] |}).
Proof.
  revert fuel s.
  induction pending as [| status pending IH]; intros fuel s Hfuel [Hp Hf] Hterm;
    (destruct fuel as [| fuel]; [ simpl in Hfuel; lia | ]).
  - simpl in Hf. rewrite Nat.add_0_r in Hf.
    rewrite (run_poll_step _ _ _ _ Hf), Hterm. simpl.
    repeat f_equal. lia.
  - destruct (Hp O status eq_refl) as [Hnt [m Hm]].
    rewrite Nat.add_0_r in Hm.
    rewrite (run_poll_step _ _ _ _ Hm), Hnt.
    rewrite IH; [ | simpl in Hfuel; lia | | done ].
    + cbn [sent log length flat_map]. f_equal. f_equal; [ lia | ].
      rewrite <- !app_assoc. reflexivity.
    + split.
      * intros i st Hi. cbn [sent].
        replace (S (sent s) + i)%nat with (sent s + S i)%nat by lia.
        apply Hp. done.
      * cbn [sent].
        replace (S (sent s) + length pending)%nat
          with (sent s + length (status :: pending))%nat by (simpl; lia).
        done.
Qed.

Lemma run_poll_returned fuel s s' :
  SteadyState.run_poll fuel self headers env s = (Returned tt, s') ->
  exists pending final msg,
    (length pending < fuel)%nat
    /\ reports_run env (sent s) pending final msg
    /\ terminal final = true.
Proof.
  revert s. induction fuel as [| fuel IH]; intros s Hrun; [ done | ].
  destruct (run_poll_step_cases fuel s)
    as [(status & msg & Hs) | (ex & s1 & Hraise)];
    [ | rewrite Hraise in Hrun; done ].
  rewrite (run_poll_step _ _ _ _ Hs) in Hrun.
  destruct (terminal status) eqn:Hterm.
  - exists [], status, msg. split; [ simpl; lia | ]. split; [ | done ].
    split; [ intros i st Hi; done | ]. simpl. rewrite Nat.add_0_r. done.
  - apply IH in Hrun as (pending & final & msg' & Hlen & [Hp Hf] & Hfinal).
    cbn [sent] in Hp, Hf.
    exists (status :: pending), final, msg'.
    split; [ simpl; lia | ]. split; [ | done ]. split.
    + intros [| i] st Hi.
      * simplify_eq/=. rewrite Nat.add_0_r. eauto.
      * replace (sent s + S i)%nat with (S (sent s) + i)%nat by lia.
        apply Hp. done.
    + replace (sent s + length (status :: pending))%nat
        with (S (sent s) + length pending)%nat by (simpl; lia).
      done.
Qed.

End RunStatusLoop.

(** C8. [SteadyState.run] returns exactly when the run request is accepted
    (202) and the status polls that follow report some statuses that are not
    terminal and then "Succeeded" or "Failed".  It then has slept one second
    after each poll that was not terminal and nowhere else, and it returns the
    same unit value whichever of the two terminal statuses ended the loop. *)
Theorem SteadyState_run_returns_iff fuel self values env s s' :
  SteadyState.run fuel self values env s = (Returned tt, s') <->
  exists accepted pending final msg,
    transport env (sent s) = Responds accepted
    /\ Response.status_code accepted = 202
    /\ (length pending < fuel)%nat
    /\ reports_run env (S (sent s)) pending final msg
    /\ (final = "Succeeded" \/ final = "Failed")
    /\ s' = {| sent := (sent s + length pending + 2)%nat;
               log := log s
                 ++ [Request POST (SteadyState.steady_state_url self +:+ "/run")
                             (bearer (SteadyState.api_key self)) (Some values);
                     Print (Text (Response.text accepted))]
                 ++ flat_map (run_poll_cycle self
                                (bearer (SteadyState.api_key self))) pending
                 ++ [Request GET (SteadyState.steady_state_url self +:+ "/run")
                             (bearer (SteadyState.api_key self)) None;
                     Print (Text final); Print (Text msg)] |}
    /\ sleeps (flat_map (run_poll_cycle self
                           (bearer (SteadyState.api_key self))) pending)
       = replicate (length pending) 1.
Proof.
  assert (Hsleeps : forall pending,
            sleeps (flat_map (run_poll_cycle self
                                (bearer (SteadyState.api_key self))) pending)
            = replicate (length pending) 1).
  { induction pending as [| st pending IH]; [ done | ].
    simpl. unfold sleeps in *. simpl. rewrite IH. done. }
  unfold SteadyState.run.
  cbv [requests.post requests.request status_error_text print
       mbind M_bind mret M_ret ask emit raise].
  split.
  - destruct (transport env (sent s)) as [accepted | failure] eqn:Ht;
      [ | done ].
    destruct (Response.status_code accepted =? requests.codes_ACCEPTED)
      eqn:Hcode; cbn [negb]; [ | done ].
    apply Z.eqb_eq in Hcode. cbn [sent log]. intros Hpoll.
    destruct (run_poll_returned _ _ _ _ _ _ Hpoll)
      as (pending & final & msg & Hlen & Hreports & Hterm).
    rewrite (run_poll_returns _ _ _ _ _ _ _ _ Hlen Hreports Hterm) in Hpoll.
    cbn [sent log] in Hpoll, Hreports.
    exists accepted, pending, final, msg.
    split; [ done | ]. split; [ done | ]. split; [ done | ].
    split; [ done | ]. split; [ by apply terminal_spec | ].
    split; [ | apply Hsleeps ].
    simplify_eq. f_equal; [ lia | ].
    rewrite <- !app_assoc. reflexivity.
  - intros (accepted & pending & final & msg
            & Ht & Hcode & Hlen & Hreports & Hfinal & -> & _).
    rewrite Ht. unfold requests.codes_ACCEPTED. rewrite Hcode. cbn [negb Z.eqb Pos.eqb].
    apply terminal_spec in Hfinal.
    rewrite (run_poll_returns _ _ _ _ _ pending final msg); try done.
    cbn [sent log]. f_equal. f_equal; [ lia | ].
    rewrite <- !app_assoc. reflexivity.
Qed.

(** ** Opening a session *)

Lemma open_steady_state_posted fuel self path cores mem env s response :
  transport env (sent s) = Responds response ->
  CoFlow.open_steady_state fuel self path cores mem env s =
  let posted :=
    [Call (OpenSteadyState path);
     Print (Text (CoFlow.url self +:+ "/sessions"));
     Request POST (CoFlow.url self +:+ "/sessions")
             (bearer (CoFlow.api_key self))
             (Some (SessionRequest cores mem))] in
  let code := Response.status_code response in
  if (code =? 401) || (code =? 405) then
    (Raised (AuthError "401 UNAUTHORIZED error: try updating your API Key"),
     {| sent := S (sent s); log := log s ++ posted |})
  else if negb (code =? 202) then
    (error_text ← status_error_text response;
     debug_print (Text error_text);;
     raise (SessionError ("Failed to create steady state session: "
                          +:+ error_text)))
      env {| sent := S (sent s); log := log s ++ posted |}
  else
    let location := Response.headers response !! "Location" in
    (CoFlow.poll_status fuel self location (bearer (CoFlow.api_key self));;
     CoFlow.initialize self path location (bearer (CoFlow.api_key self)))
      env {| sent := S (sent s);
             log := log s ++ posted
                    ++ [Print (Text ("Location: "
                                     +:+ CoFlow.str_of_location location))] |}.
Proof.
  intros Ht. unfold CoFlow.open_steady_state.
  cbv [requests.post requests.request print emit mbind M_bind mret M_ret raise].
  cbn [sent log]. rewrite Ht. cbv zeta.
  unfold requests.codes_UNAUTHORIZED, requests.codes_ACCEPTED.
  destruct ((_ =? 401) || _);
    [ cbn [sent log]; rewrite <- !app_assoc; reflexivity | ].
  destruct (negb _); cbn [sent log]; rewrite <- !app_assoc; cbn [app];
    [ | reflexivity ].
  destruct (status_error_text response env _) as [[a | ex |] s1]; try reflexivity.
  destruct (debug_print _ env s1) as [[a' | ex |] s2]; reflexivity.
Qed.

Lemma poll_status_first_request fuel self location headers env s :
  exists events,
    log (CoFlow.poll_status (S fuel) self (Some location) headers env s).2
    = log s ++ Request GET (CoFlow.url self +:+ location) headers None :: events
    /\ calls events = [].
Proof.
  cbn [CoFlow.poll_status]. cbv [str_add]. rewrite bind_run.
  cbv [mret M_ret]. rewrite bind_run.
  unfold requests.get at 1. unfold requests.request at 1.
  destruct (transport env (sent s)) as [response | failure].
  - match goal with
    | |- context [ log (?m env ?st).2 ] =>
        assert (Hs : silent m) by (pose proof silent_poll_status; silence);
        destruct (Hs env st) as (events & E & C)
    end.
    exists events. rewrite E. cbn [log]. rewrite <- app_assoc. done.
  - exists []. done.
Qed.

(** C4.  The reply to the create-session request decides
    how [open_steady_state] goes on: status 401 or 405 raises [AuthError];
    status 202 whose headers carry a Location goes on to poll that location,
    so that the next request is a GET of the client URL followed by it; any
    other status raises [SessionError] without a further request. *)
Theorem open_steady_state_create_reply
    fuel self path cores mem env s response :
  transport env (sent s) = Responds response ->
  let code := Response.status_code response in
  let result := CoFlow.open_steady_state fuel self path cores mem env s in
  let posted :=
    [Call (OpenSteadyState path);
     Print (Text (CoFlow.url self +:+ "/sessions"));
     Request POST (CoFlow.url self +:+ "/sessions")
             (bearer (CoFlow.api_key self))
             (Some (SessionRequest cores mem))] in
  (code = 401 \/ code = 405 ->
     result = (Raised (AuthError
                         "401 UNAUTHORIZED error: try updating your API Key"),
               {| sent := S (sent s); log := log s ++ posted |}))
  /\ (code <> 401 -> code <> 405 -> code <> 202 ->
      exists msg, result.1 = Raised (SessionError msg)
                  /\ sent result.2 = S (sent s))
  /\ (code = 202 ->
      forall location,
        Response.headers response !! "Location" = Some location ->
        result =
        (CoFlow.poll_status fuel self (Some location)
                            (bearer (CoFlow.api_key self));;
         CoFlow.initialize self path (Some location)
                           (bearer (CoFlow.api_key self)))
          env {| sent := S (sent s);
                 log := log s ++ posted
                        ++ [Print (Text ("Location: " +:+ location))] |}
        /\ ((0 < fuel)%nat ->
            exists events,
              log result.2 =
              log s ++ posted
                ++ [Print (Text ("Location: " +:+ location));
                    Request GET (CoFlow.url self +:+ location)
                            (bearer (CoFlow.api_key self)) None]
                ++ events)).
Proof.
  intros Ht code result posted. subst result.
  rewrite (open_steady_state_posted _ _ _ _ _ _ _ _ Ht). cbv zeta.
  fold code. split; [ | split ].
  - intros [-> | ->]; reflexivity.
  - intros H401 H405 H202.
    apply Z.eqb_neq in H401, H405, H202. rewrite H401, H405, H202. cbn [orb negb].
    cbv [status_error_text debug_print print
         mbind M_bind mret M_ret ask emit raise].
    destruct (debug_output env); eexists; split; reflexivity.
  - intros -> location Hloc. cbn [Z.eqb Pos.eqb orb negb].
    rewrite Hloc. cbn [CoFlow.str_of_location]. subst posted.
    split; [ reflexivity | ].
    intros Hfuel. destruct fuel as [| fuel]; [ lia | ].
    rewrite bind_run.
    match goal with
    | |- context [ CoFlow.poll_status _ _ _ ?headers env ?st ] =>
        destruct (poll_status_first_request fuel self location headers env st)
          as (ev1 & E1 & _);
        destruct (CoFlow.poll_status (S fuel) self (Some location) headers
                    env st) as [[[] | ex |] s1]
    end; cbn [snd log] in E1.
    + destruct (silent_initialize self path (Some location)
                  (bearer (CoFlow.api_key self)) env s1) as (ev2 & E2 & _).
      exists (ev1 ++ ev2). rewrite E2, E1. rewrite <- !app_assoc. reflexivity.
    + exists ev1. cbn [snd]. rewrite E1, <- !app_assoc. reflexivity.
    + exists ev1. cbn [snd]. rewrite E1, <- !app_assoc. reflexivity.
Qed.


(** ** The init request *)

Lemma create_init_request_run self path env s :
  CoFlow.create_init_request self path env s =
  match urllib.urlsplit (urllib_checks env) path with
  | inl msg =>
      (Raised (ValueError msg),
       {| sent := sent s;
          log := log s ++ [extraction_report (ValueError msg)] |})
  | inr pathAsUrl =>
      match Str.split "/" (urllib.path pathAsUrl) with
      | _ :: project :: study :: target_case :: _ =>
          (Returned
             {| initializationInfo :=
                  {| repositoryName := urllib.netloc pathAsUrl;
                     projectName := project;
                     studyName := study |};
                editableInfo :=
                  {| systemOfUnits := "SI"; caseName := target_case |} |},
           s)
      | _ =>
          (Raised (IndexError "list index out of range"),
           {| sent := sent s;
              log := log s ++ [extraction_report
                                 (IndexError "list index out of range")] |})
      end
  end.
Proof.
  unfold CoFlow.create_init_request.
  cbv [attempt list_getitem print mbind M_bind mret M_ret ask emit raise].
  destruct (urllib.urlsplit _ path) as [msg | pathAsUrl]; [ reflexivity | ].
  destruct (Str.split "/" (urllib.path pathAsUrl))
    as [| c0 [| c1 [| c2 [| c3 rest]]]]; reflexivity.
Qed.

(** C2, as the code has it.  The repository name of the init request is the
    network location [urlsplit] finds in the model path, and the project, the
    study and the target case are the second, third and fourth
    '/'-separated pieces of its URL path, that is the three segments after
    the leading '/'.  For "//repo/projA/studyB/caseC" these are repo, projA,
    studyB and caseC. *)
Theorem create_init_request_fields
    self path env s pathAsUrl first project study target_case rest :
  urllib.urlsplit (urllib_checks env) path = inr pathAsUrl ->
  Str.split "/" (urllib.path pathAsUrl)
    = first :: project :: study :: target_case :: rest ->
  CoFlow.create_init_request self path env s =
  (Returned
     {| initializationInfo :=
          {| repositoryName := urllib.netloc pathAsUrl;
             projectName := project;
             studyName := study |};
        editableInfo :=
          {| systemOfUnits := "SI"; caseName := target_case |} |},
   s).
Proof.
  intros Hsplit Hcomponents.
  rewrite create_init_request_run, Hsplit, Hcomponents. reflexivity.
Qed.

(** C6. A model path that [urlsplit] rejects, or whose URL path has fewer
    than three '/'-separated segments after its first piece, makes
    [create_init_request] raise: it reports the exception of the [try] block
    and raises that same exception, and returns no init request. *)
Theorem create_init_request_malformed self path env s :
  (forall pathAsUrl,
     urllib.urlsplit (urllib_checks env) path = inr pathAsUrl ->
     (length (tail (Str.split "/" (urllib.path pathAsUrl))) < 3)%nat) ->
  CoFlow.create_init_request self path env s =
  (Raised (extraction_error (urllib_checks env) path),
   {| sent := sent s;
      log := log s
             ++ [extraction_report
                   (extraction_error (urllib_checks env) path)] |})
  /\ (forall pathAsUrl,
        urllib.urlsplit (urllib_checks env) path = inr pathAsUrl ->
        extraction_error (urllib_checks env) path
        = IndexError "list index out of range")
  /\ (forall msg,
        urllib.urlsplit (urllib_checks env) path = inl msg ->
        extraction_error (urllib_checks env) path = ValueError msg).
Proof.
  intros Hshort. unfold extraction_error.
  rewrite create_init_request_run.
  destruct (urllib.urlsplit _ path) as [msg | pathAsUrl].
  - split; [ reflexivity | ]. split; [ done | ]. intros ? [= ->]. done.
  - specialize (Hshort pathAsUrl eq_refl).
    destruct (Str.split "/" (urllib.path pathAsUrl))
      as [| c0 [| c1 [| c2 [| c3 rest]]]];
      simpl in Hshort; try lia; done.
Qed.

(** ** Translating the query result *)

Lemma output_payload_lookup_other items op lk p :
  p ∉ map (fun item : string * PropertyDef => prop_path (snd item)) items ->
  (SteadyStateModel.output_payload items op lk).2 !! p = lk !! p.
Proof.
  revert op lk. induction items as [| [key prop] items IH]; intros op lk Hp;
    [ done | ].
  simpl in *. apply not_elem_of_cons in Hp as [Hne Hp].
  rewrite IH by done. by rewrite lookup_insert_ne.
Qed.

Lemma output_payload_lookup_Some items op lk p alias prop :
  (SteadyStateModel.output_payload items op lk).2 !! p = Some (alias, prop) ->
  lk !! p = Some (alias, prop)
  \/ ((alias, prop) ∈ items /\ prop_path prop = p).
Proof.
  revert op lk. induction items as [| [key def] items IH]; intros op lk Hl;
    [ by left | ].
  simpl in Hl. apply IH in Hl as [Hl | [Hin Hp]].
  - destruct (decide (prop_path def = p)) as [<- | Hne].
    + rewrite lookup_insert_eq in Hl. simplify_eq. right. split; [ left | done ].
    + rewrite lookup_insert_ne in Hl by done. by left.
  - right. split; [ by right | done ].
Qed.

Lemma output_payload_lookup_None items op lk p :
  (SteadyStateModel.output_payload items op lk).2 !! p = None <->
  lk !! p = None
  /\ p ∉ map (fun item : string * PropertyDef => prop_path (snd item)) items.
Proof.
  revert op lk. induction items as [| [key def] items IH]; intros op lk.
  - simpl. split; [ intros H; split; [ done | apply not_elem_of_nil ] | tauto ].
  - simpl. rewrite IH, lookup_insert_None, not_elem_of_cons.
    intuition congruence.
Qed.

Lemma output_payload_lookup_declared items op lk alias prop :
  NoDup (map (fun item : string * PropertyDef => prop_path (snd item)) items) ->
  (alias, prop) ∈ items ->
  (SteadyStateModel.output_payload items op lk).2 !! prop_path prop
  = Some (alias, prop).
Proof.
  revert op lk. induction items as [| [key def] items IH]; intros op lk Hnd Hin.
  - by apply elem_of_nil in Hin.
  - simpl in *. apply NoDup_cons in Hnd as [Hfresh Hnd].
    apply elem_of_cons in Hin as [Heq | Hin].
    + simplify_eq. rewrite output_payload_lookup_other by done.
      by rewrite lookup_insert_eq.
    + by apply IH.
Qed.

Lemma translate_dom lk results out output :
  SteadyStateModel.translate lk results out = inr output ->
  forall alias,
    alias ∈ dom output <->
    alias ∈ dom out
    \/ exists r prop, r ∈ results /\ lk !! propertyPath r = Some (alias, prop).
Proof.
  revert out. induction results as [| r results IH]; intros out Ht alias.
  - simpl in Ht. simplify_eq. split; [ by left | ].
    intros [H | (r & prop & Hin & _)]; [ done | by apply elem_of_nil in Hin ].
  - simpl in Ht.
    destruct (lk !! propertyPath r) as [[key def] |] eqn:Hl; [ | done ].
    rewrite (IH _ Ht alias), dom_insert_L, elem_of_union, elem_of_singleton.
    split.
    + intros [[-> | Hout] | (r' & prop & Hin & Hl')].
      * right. exists r, def. split; [ left | done ].
      * by left.
      * right. exists r', prop. split; [ by right | done ].
    + intros [Hout | (r' & prop & Hin & Hl')]; [ left; by right | ].
      apply elem_of_cons in Hin as [-> | Hin].
      * rewrite Hl in Hl'. simplify_eq. left. by left.
      * right. by exists r', prop.
Qed.

Lemma translate_KeyError lk results out :
  (exists r, r ∈ results /\ lk !! propertyPath r = None) ->
  exists p,
    SteadyStateModel.translate lk results out = inl (KeyError p)
    /\ p ∈ map propertyPath results
    /\ lk !! p = None.
Proof.
  revert out. induction results as [| r results IH];
    intros out (bad & Hin & Hbad).
  - by apply elem_of_nil in Hin.
  - simpl. destruct (lk !! propertyPath r) as [[key def] |] eqn:Hl.
    + apply elem_of_cons in Hin as [-> | Hin]; [ congruence | ].
      destruct (IH (<[key := value r]> out)) as (p & Ht & Hp & Hnone);
        [ by exists bad | ].
      exists p. split; [ done | ]. split; [ by right | done ].
    + exists (propertyPath r). split; [ done | ]. split; [ left | done ].
Qed.

Lemma run_model_run fuel ss payload op lk env s1 :
  SteadyStateModel.run_model fuel ss payload op lk env s1 =
  match SteadyState.run fuel ss (RunBody payload) env s1 with
  | (Returned _, s2) =>
      match SteadyState.query ss (QueryBody op) env s2 with
      | (Returned model_output, s3) =>
          match key_properties model_output with
          | Some results =>
              match SteadyStateModel.translate lk results ∅ with
              | inr output => (Returned output, s3)
              | inl ex => (Raised ex, s3)
              end
          | None => (Raised (KeyError "properties"), s3)
          end
      | (Raised ex, s3) => (Raised ex, s3)
      | (Unfinished, s3) => (Unfinished, s3)
      end
  | (Raised ex, s2) => (Raised ex, s2)
  | (Unfinished, s2) => (Unfinished, s2)
  end.
Proof.
  unfold SteadyStateModel.run_model.
  cbv [getitem lift mbind M_bind mret M_ret raise].
  destruct (SteadyState.run _ _ _ env s1) as [[[] | ex |] s2]; try reflexivity.
  destruct (SteadyState.query _ _ env s2) as [[obj | ex |] s3]; try reflexivity.
  destruct (key_properties obj) as [results |]; [ | reflexivity ].
  destruct (SteadyStateModel.translate lk results ∅); reflexivity.
Qed.

(** What must have happened for [SteadyStateModel.run] to return. *)
Lemma run_returned fuel self input_values env s output s' :
  SteadyStateModel.run fuel self input_values env s = (Returned output, s') ->
  exists payload ss s1 s2 model_output s3 results,
    SteadyStateModel.input_payload
      (SteadyStateModel.input_defs self) input_values [] = inr payload
    /\ CoFlow.open_steady_state fuel (SteadyStateModel.client self)
         (SteadyStateModel.model_path self) 1 1024 env s = (Returned ss, s1)
    /\ SteadyState.run fuel ss (RunBody payload) env s1 = (Returned tt, s2)
    /\ SteadyState.query ss
         (QueryBody (SteadyStateModel.output_payload
                       (SteadyStateModel.output_defs self) [] ∅).1) env s2
       = (Returned model_output, s3)
    /\ key_properties model_output = Some results
    /\ SteadyStateModel.translate
         (SteadyStateModel.output_payload
            (SteadyStateModel.output_defs self) [] ∅).2 results ∅
       = inr output.
Proof.
  intros Hrun.
  destruct (SteadyStateModel.input_payload
              (SteadyStateModel.input_defs self) input_values [])
    as [ex | payload] eqn:Hin.
  { unfold SteadyStateModel.run in Hrun. rewrite Hin in Hrun. done. }
  rewrite (run_after_open _ _ _ _ _ _ Hin) in Hrun.
  destruct (SteadyStateModel.output_payload _ _ _) as [op lk].
  destruct (CoFlow.open_steady_state _ _ _ _ _ env s) as [[ss | ex |] s1];
    [ | done | done ].
  rewrite run_model_run in Hrun.
  destruct (SteadyState.run _ _ _ env s1) as [[[] | ex |] s2] eqn:Hr;
    [ | | done ].
  2: { destruct (CoFlow.close_steady_state _ _ env s2) as [[[] | ? |] ?]; done. }
  destruct (SteadyState.query _ _ env s2) as [[obj | ex |] s3] eqn:Hq;
    [ | | done ].
  2: { destruct (CoFlow.close_steady_state _ _ env s3) as [[[] | ? |] ?]; done. }
  destruct (key_properties obj) as [results |] eqn:Hp.
  2: { destruct (CoFlow.close_steady_state _ _ env s3) as [[[] | ? |] ?]; done. }
  destruct (SteadyStateModel.translate lk results ∅) as [ex | out] eqn:Ht.
  { destruct (CoFlow.close_steady_state _ _ env s3) as [[[] | ? |] ?]; done. }
  destruct (CoFlow.close_steady_state _ _ env s3) as [[[] | ? |] ?];
    [ | done | done ].
  simplify_eq. exists payload, ss, s1, s2, obj, s3, results. done.
Qed.

(** C7, as the code has it.  When [SteadyStateModel.run] returns, every key
    of the mapping it returns is a declared output alias, and the keys are
    all of the declared aliases whenever the declared paths are pairwise
    distinct and the result of the query made in that execution holds an
    entry for each of them. *)
Theorem run_output_keys fuel self input_values env s output s' :
  SteadyStateModel.run fuel self input_values env s = (Returned output, s') ->
  dom output ⊆ declared_aliases self
  /\ exists payload ss s1 s2 model_output s3 results,
       SteadyStateModel.input_payload
         (SteadyStateModel.input_defs self) input_values [] = inr payload
       /\ CoFlow.open_steady_state fuel (SteadyStateModel.client self)
            (SteadyStateModel.model_path self) 1 1024 env s
          = (Returned ss, s1)
       /\ SteadyState.run fuel ss (RunBody payload) env s1 = (Returned tt, s2)
       /\ SteadyState.query ss
            (QueryBody (SteadyStateModel.output_payload
                          (SteadyStateModel.output_defs self) [] ∅).1) env s2
          = (Returned model_output, s3)
       /\ key_properties model_output = Some results
       /\ (NoDup (declared_paths self) ->
           (forall p, p ∈ declared_paths self ->
                      p ∈ map propertyPath results) ->
           dom output = declared_aliases self).
Proof.
  intros Hrun.
  destruct (run_returned _ _ _ _ _ _ _ Hrun)
    as (payload & ss & s1 & s2 & obj & s3 & results
        & Hpayload & Hopen & Hrun' & Hq & Hp & Ht).
  pose proof (translate_dom _ _ _ _ Ht) as Hdom.
  assert (Hsub : dom output ⊆ declared_aliases self).
  { intros alias Ha. apply Hdom in Ha as [Ha | (r & prop & _ & Hl)];
      [ by rewrite dom_empty_L in Ha | ].
    apply output_payload_lookup_Some in Hl as [Hl | [Hin _]]; [ done | ].
    unfold declared_aliases. apply elem_of_list_to_set.
    apply list_elem_of_fmap. by exists (alias, prop). }
  split; [ done | ].
  exists payload, ss, s1, s2, obj, s3, results.
  do 5 (split; [ done | ]).
  intros Hnd Hall. apply set_eq. intros alias. split; [ apply Hsub | ].
  unfold declared_aliases. rewrite elem_of_list_to_set.
  intros Ha. apply list_elem_of_fmap in Ha as ([alias' prop] & -> & Hdef).
  simpl. apply Hdom. right.
  assert (Hp' : prop_path prop ∈ map propertyPath results).
  { apply Hall. unfold declared_paths. apply list_elem_of_fmap.
    by exists (alias', prop). }
  apply list_elem_of_fmap in Hp' as (r & Hr & Hrin).
  exists r, prop. split; [ done | ]. rewrite <- Hr.
  by apply output_payload_lookup_declared.
Qed.

(** C10. When the query result that reaches [SteadyStateModel.run] holds an
    entry whose path [output_defs] does not declare, the translation of the
    result raises [KeyError] for an undeclared path of the result: the lookup
    it reads is keyed by the declared paths only, the body of the [try]
    block ends with that [KeyError], and so does [run] once the session is
    closed. *)
Theorem run_undeclared_path_KeyError
    fuel self input_values env s payload ss s1 s2 model_output s3 results :
  SteadyStateModel.input_payload
    (SteadyStateModel.input_defs self) input_values [] = inr payload ->
  CoFlow.open_steady_state fuel (SteadyStateModel.client self)
    (SteadyStateModel.model_path self) 1 1024 env s = (Returned ss, s1) ->
  SteadyState.run fuel ss (RunBody payload) env s1 = (Returned tt, s2) ->
  SteadyState.query ss
    (QueryBody (SteadyStateModel.output_payload
                  (SteadyStateModel.output_defs self) [] ∅).1) env s2
  = (Returned model_output, s3) ->
  key_properties model_output = Some results ->
  (exists r, r ∈ results /\ propertyPath r ∉ declared_paths self) ->
  let output_lookup :=
    (SteadyStateModel.output_payload
       (SteadyStateModel.output_defs self) [] ∅).2 in
  (forall p, is_Some (output_lookup !! p) <-> p ∈ declared_paths self)
  /\ exists p,
       p ∈ map propertyPath results
       /\ (p ∉ declared_paths self)
       /\ SteadyStateModel.translate output_lookup results ∅
          = inl (KeyError p)
       /\ SteadyStateModel.run_model fuel ss payload
            (SteadyStateModel.output_payload
               (SteadyStateModel.output_defs self) [] ∅).1
            output_lookup env s1
          = (Raised (KeyError p), s3)
       /\ forall s4,
            CoFlow.close_steady_state (SteadyStateModel.client self) ss env s3
            = (Returned tt, s4) ->
            SteadyStateModel.run fuel self input_values env s
            = (Raised (KeyError p), s4).
Proof.
  intros Hin Hopen Hrun Hquery Hprops (bad & Hbad & Hundeclared) output_lookup.
  assert (Hkeys : forall p,
            output_lookup !! p = None <-> p ∉ declared_paths self).
  { intros p. subst output_lookup. rewrite output_payload_lookup_None.
    rewrite lookup_empty. unfold declared_paths. tauto. }
  split.
  { intros p. rewrite <- not_eq_None_Some, Hkeys.
    destruct (decide (p ∈ declared_paths self)); tauto. }
  destruct (translate_KeyError output_lookup results ∅) as (p & Ht & Hp & Hnone).
  { exists bad. split; [ done | ]. by apply Hkeys. }
  exists p. split; [ done | ]. split; [ by apply Hkeys | ]. split; [ done | ].
  assert (Hbody : SteadyStateModel.run_model fuel ss payload
            (SteadyStateModel.output_payload
               (SteadyStateModel.output_defs self) [] ∅).1
            output_lookup env s1 = (Raised (KeyError p), s3)).
  { rewrite run_model_run, Hrun, Hquery, Hprops, Ht. reflexivity. }
  split; [ done | ].
  intros s4 Hclose. rewrite (run_after_open _ _ _ _ _ _ Hin).
  subst output_lookup.
  destruct (SteadyStateModel.output_payload _ _ _) as [op lk].
  simpl in Hbody. rewrite Hopen, Hbody, Hclose. reflexivity.
Qed.

(** ** Model paths with fewer than three slashes

    The URL path [urlsplit] returns is cut out of the model path, so it has
    no more slashes than the model path has. *)

Lemma split_length sep s : length (Str.split sep s) = S (Str.count sep s).
Proof.
  induction s as [| c s IH]; [ reflexivity | ].
  simpl. destruct (Ascii.eqb c sep); simpl; [ by rewrite IH | ].
  destruct (Str.split sep s); simpl in *; lia.
Qed.

Lemma count_drop sep n s : (Str.count sep (Str.drop n s) <= Str.count sep s)%nat.
Proof.
  revert s. induction n as [| n IH]; intros [| c s]; simpl; try lia.
  specialize (IH s). destruct (Ascii.eqb c sep); lia.
Qed.

Lemma count_lstrip sep strip s :
  (Str.count sep (Str.lstrip strip s) <= Str.count sep s)%nat.
Proof.
  induction s as [| c s IH]; simpl; [ lia | ].
  destruct (strip c); simpl; destruct (Ascii.eqb c sep); lia.
Qed.

Lemma count_remove sep unsafe s :
  (Str.count sep (Str.remove unsafe s) <= Str.count sep s)%nat.
Proof.
  induction s as [| c s IH]; simpl; [ lia | ].
  destruct (unsafe c); simpl; destruct (Ascii.eqb c sep); lia.
Qed.

Lemma count_split_once sep cut s :
  (Str.count sep (Str.split_once cut s).1 <= Str.count sep s)%nat.
Proof.
  induction s as [| c s IH]; simpl; [ lia | ].
  destruct (Ascii.eqb c cut); simpl; [ destruct (Ascii.eqb c sep); lia | ].
  destruct (Str.split_once cut s) as [before after]. simpl in *.
  destruct (Ascii.eqb c sep); lia.
Qed.

Lemma count_split_scheme sep url :
  (Str.count sep (urllib.split_scheme url).2 <= Str.count sep url)%nat.
Proof.
  unfold urllib.split_scheme.
  destruct (Str.find ":" url) as [[| i] |]; try (simpl; lia).
  destruct url as [| c0 url]; [ simpl; lia | ].
  destruct (_ && _); [ apply count_drop | simpl; lia ].
Qed.

Lemma count_splitnetloc sep rest :
  (Str.count sep (urllib.splitnetloc rest).2 <= Str.count sep rest)%nat.
Proof.
  induction rest as [| c rest IH]; simpl; [ lia | ].
  destruct (urllib.netloc_delim c); simpl; [ lia | ].
  destruct (urllib.splitnetloc rest) as [domain tail]. simpl in *.
  destruct (Ascii.eqb c sep); lia.
Qed.

Lemma urlsplit_path_count lib sep url pathAsUrl :
  urllib.urlsplit lib url = inr pathAsUrl ->
  (Str.count sep (urllib.path pathAsUrl) <= Str.count sep url)%nat.
Proof.
  unfold urllib.urlsplit.
  pose proof (count_lstrip sep urllib.c0_control_or_space url) as H1.
  pose proof (count_remove sep urllib.unsafe_url_byte
                (Str.lstrip urllib.c0_control_or_space url)) as H2.
  pose proof (count_split_scheme sep
                (Str.remove urllib.unsafe_url_byte
                   (Str.lstrip urllib.c0_control_or_space url))) as H3.
  destruct (urllib.split_scheme _) as [scheme rest]. simpl in H3.
  assert (Hauth : forall netloc tail,
            (if Str.starts_with "//" rest
             then
               let '(netloc, url) := urllib.splitnetloc (Str.drop 2 rest) in
               let opening := Str.contains "[" netloc in
               let closing := Str.contains "]" netloc in
               if (opening && negb closing) || (closing && negb opening)
               then inl "Invalid IPv6 URL"
               else if opening && closing
               then match urllib.check_bracketed_netloc lib netloc with
                    | Some msg => inl msg
                    | None => inr (netloc, url)
                    end
               else inr (netloc, url)
             else inr (EmptyString, rest)) = inr (netloc, tail) ->
            (Str.count sep tail <= Str.count sep rest)%nat).
  { intros netloc tail. destruct (Str.starts_with "//" rest).
    - pose proof (count_splitnetloc sep (Str.drop 2 rest)) as H4.
      pose proof (count_drop sep 2 rest) as H5.
      destruct (urllib.splitnetloc _) as [domain after]. cbn [snd] in H4.
      cbv zeta. repeat case_match; intros; simplify_eq; lia.
    - intros; simplify_eq; lia. }
  match goal with
  | |- match ?a with _ => _ end = _ -> _ => destruct a as [msg | [netloc tail]] eqn:Ha
  end; [ done | ].
  specialize (Hauth netloc tail eq_refl).
  pose proof (count_split_once sep "#" tail) as H6.
  destruct (Str.contains "#" tail).
  - destruct (Str.split_once "#" tail) as [before fragment]. simpl in H6.
    pose proof (count_split_once sep "?" before) as H7.
    destruct (Str.contains "?" before).
    + destruct (Str.split_once "?" before) as [before' query]. simpl in H7.
      destruct (urllib.checknetloc lib netloc); intros; simplify_eq/=; lia.
    + destruct (urllib.checknetloc lib netloc); intros; simplify_eq/=; lia.
  - pose proof (count_split_once sep "?" tail) as H7.
    destruct (Str.contains "?" tail).
    + destruct (Str.split_once "?" tail) as [before' query]. simpl in H7.
      destruct (urllib.checknetloc lib netloc); intros; simplify_eq/=; lia.
    + destruct (urllib.checknetloc lib netloc); intros; simplify_eq/=; lia.
Qed.

(** A model path with fewer than three slashes, such as "repo/projA/studyB",
    never yields an init request. *)
Lemma create_init_request_few_slashes self path env s :
  (Str.count "/" path < 3)%nat ->
  (CoFlow.create_init_request self path env s).1
  = Raised (extraction_error (urllib_checks env) path).
Proof.
  intros Hfew. rewrite create_init_request_run. unfold extraction_error.
  destruct (urllib.urlsplit _ path) as [msg | pathAsUrl] eqn:Hsplit;
    [ reflexivity | ].
  pose proof (urlsplit_path_count _ "/" _ _ Hsplit) as Hcount.
  pose proof (split_length "/" (urllib.path pathAsUrl)) as Hlen.
  destruct (Str.split "/" (urllib.path pathAsUrl))
    as [| c0 [| c1 [| c2 [| c3 rest]]]]; simpl in Hlen; try reflexivity.
  lia.
Qed.

(** ** Executions against a scripted service *)

Lemma run_closes_session_once_witness :
  (exists events,
     log (SteadyStateModel.run 5 bhp_model bhp_inputs
            (world happy_script offline) start).2 = log start ++ events
     /\ calls events
        = [OpenSteadyState "//repo/projA/studyB/caseC";
           CloseSteadyState (SteadyState.steady_state_url bhp_session)]
     /\ close_calls events = [SteadyState.steady_state_url bhp_session])
  /\ (exists events,
        log (SteadyStateModel.run 5 bhp_model bhp_inputs
               (world run_refused_script offline) start).2
        = log start ++ events
        /\ calls events
           = [OpenSteadyState "//repo/projA/studyB/caseC";
              CloseSteadyState (SteadyState.steady_state_url bhp_session)]
        /\ close_calls events = [SteadyState.steady_state_url bhp_session])
  /\ (exists events,
        log (SteadyStateModel.run 5 bhp_model bhp_inputs
               (world query_refused_script offline) start).2
        = log start ++ events
        /\ calls events
           = [OpenSteadyState "//repo/projA/studyB/caseC";
              CloseSteadyState (SteadyState.steady_state_url bhp_session)]
        /\ close_calls events = [SteadyState.steady_state_url bhp_session]).
Proof.
  split; [ | split ].
  - apply (run_closes_session_once 5 bhp_model bhp_inputs
             (world happy_script offline) start
             [ {| propertyPath := pipe_path; unit_ := "psi";
                  value := Float 2667761 (-3) |} ]
             bhp_session
             (CoFlow.open_steady_state 5 tenant "//repo/projA/studyB/caseC"
                1 1024 (world happy_script offline) start).2).
    + vm_compute. reflexivity.
    + vm_compute. reflexivity.
    + vm_compute. discriminate.
  - apply (run_closes_session_once 5 bhp_model bhp_inputs
             (world run_refused_script offline) start
             [ {| propertyPath := pipe_path; unit_ := "psi";
                  value := Float 2667761 (-3) |} ]
             bhp_session
             (CoFlow.open_steady_state 5 tenant "//repo/projA/studyB/caseC"
                1 1024 (world run_refused_script offline) start).2).
    + vm_compute. reflexivity.
    + vm_compute. reflexivity.
    + vm_compute. discriminate.
  - apply (run_closes_session_once 5 bhp_model bhp_inputs
             (world query_refused_script offline) start
             [ {| propertyPath := pipe_path; unit_ := "psi";
                  value := Float 2667761 (-3) |} ]
             bhp_session
             (CoFlow.open_steady_state 5 tenant "//repo/projA/studyB/caseC"
                1 1024 (world query_refused_script offline) start).2).
    + vm_compute. reflexivity.
    + vm_compute. reflexivity.
    + vm_compute. discriminate.
Defined.


Lemma run_unbound_model_when_open_raises_witness :
  SteadyStateModel.run 5 bhp_model bhp_inputs
    (world unauthorized_script offline) start
  = (Raised (UnboundLocalError "model"),
     (CoFlow.open_steady_state 5 tenant "//repo/projA/studyB/caseC" 1 1024
        (world unauthorized_script offline) start).2)
  /\ exists events,
       log (CoFlow.open_steady_state 5 tenant "//repo/projA/studyB/caseC"
              1 1024 (world unauthorized_script offline) start).2
       = log start ++ events
       /\ close_calls events = [].
Proof.
  apply (run_unbound_model_when_open_raises 5 bhp_model bhp_inputs
           (world unauthorized_script offline) start
           [ {| propertyPath := pipe_path; unit_ := "psi";
                value := Float 2667761 (-3) |} ]
           (AuthError "401 UNAUTHORIZED error: try updating your API Key")).
  - vm_compute. reflexivity.
  - vm_compute. reflexivity.
Defined.

Lemma poll_status_cycles_witness :
  (let env := world [session_status 100; session_status 100;
                     session_status 200] offline in
   let result := CoFlow.poll_status 5 tenant (Some "/sessions/7/status")
                   (bearer "k") env start in
   result.1 = Returned tt
   /\ sent result.2 = 3%nat
   /\ sleeps (log result.2) = [1; 1])
  /\ (let env := world [session_status 100; session_status 300] offline in
      let result := CoFlow.poll_status 5 tenant (Some "/sessions/7/status")
                      (bearer "k") env start in
      result.1 = Raised (CoFlowError
                           "Failed to create session: Status: Failed, Code: 300")
      /\ sent result.2 = 2%nat).
Proof.
  split.
  - intros env result. subst result.
    destruct (poll_status_cycles 2 5 tenant "/sessions/7/status" (bearer "k")
                env start 200) as (E & _).
    + lia.
    + intros [| [| i]] Hi; [ | | lia ];
        (eexists; eexists; repeat split; reflexivity).
    + eexists; eexists; repeat split; reflexivity.
    + lia.
    + rewrite E. vm_compute. repeat split.
  - intros env result. subst result.
    destruct (poll_status_cycles 1 5 tenant "/sessions/7/status" (bearer "k")
                env start 300) as (E & _).
    + lia.
    + intros [| i] Hi; [ | lia ].
      eexists; eexists; repeat split; reflexivity.
    + eexists; eexists; repeat split; reflexivity.
    + lia.
    + rewrite E. vm_compute. repeat split.
Defined.

Lemma SteadyState_run_returns_iff_witness :
  (SteadyState.run 5 bhp_session (RunBody [])
     (world [reply 202 None; run_status "Running" "";
             run_status "Succeeded" "done"] offline) start).1
  = Returned tt
  /\ (SteadyState.run 5 bhp_session (RunBody [])
        (world [reply 202 None; run_status "Running" "";
                run_status "Failed" "diverged"] offline) start).1
     = Returned tt.
Proof.
  split.
  - erewrite (proj2 (SteadyState_run_returns_iff 5 bhp_session (RunBody [])
                       (world [reply 202 None; run_status "Running" "";
                               run_status "Succeeded" "done"] offline)
                       start _)); [ reflexivity | ].
    eexists; exists ["Running"], "Succeeded", "done".
    split; [ reflexivity | ]. split; [ reflexivity | ].
    split; [ simpl; lia | ]. split.
    { split.
      - intros [| i] status Hi; [ | done ]. simplify_eq/=.
        split; [ reflexivity | ]. exists "".
        eexists; eexists; repeat split; reflexivity.
      - eexists; eexists; repeat split; reflexivity. }
    split; [ by left | ]. split; reflexivity.
  - erewrite (proj2 (SteadyState_run_returns_iff 5 bhp_session (RunBody [])
                       (world [reply 202 None; run_status "Running" "";
                               run_status "Failed" "diverged"] offline)
                       start _)); [ reflexivity | ].
    eexists; exists ["Running"], "Failed", "diverged".
    split; [ reflexivity | ]. split; [ reflexivity | ].
    split; [ simpl; lia | ]. split.
    { split.
      - intros [| i] status Hi; [ | done ]. simplify_eq/=.
        split; [ reflexivity | ]. exists "".
        eexists; eexists; repeat split; reflexivity.
      - eexists; eexists; repeat split; reflexivity. }
    split; [ by right | ]. split; reflexivity.
Defined.

Lemma open_steady_state_create_reply_witness :
  exists events,
    log (CoFlow.open_steady_state 5 tenant "//repo/projA/studyB/caseC" 1 1024
           (world happy_script offline) start).2
    = log start
      ++ [Call (OpenSteadyState "//repo/projA/studyB/caseC");
          Print (Text "https://tenant/api/sessions");
          Request POST "https://tenant/api/sessions" (bearer "k")
                  (Some (SessionRequest 1 1024))]
      ++ [Print (Text "Location: /sessions/7/status");
          Request GET "https://tenant/api/sessions/7/status" (bearer "k") None]
      ++ events.
Proof.
  destruct (open_steady_state_create_reply 5 tenant
              "//repo/projA/studyB/caseC" 1 1024
              (world happy_script offline) start
              {| Response.status_code := 202; Response.text := "";
                 Response.headers := {[ "Location" := "/sessions/7/status" ]};
                 Response.json := None |})
    as (_ & _ & Haccepted).
  - reflexivity.
  - destruct (Haccepted eq_refl "/sessions/7/status") as [_ Hpoll].
    + vm_compute. reflexivity.
    + apply Hpoll. lia.
Defined.

(** Outside the cases above: a create-session reply with status 202 and no
    Location header does not lead to a poll.  [open_steady_state] raises
    [TypeError] when it builds the URL to poll, and sends no GET. *)
Lemma open_steady_state_accepted_without_location :
  let env := world no_location_script (session_status 200) in
  let result := CoFlow.open_steady_state 5 tenant "//repo/projA/studyB/caseC"
                  1 1024 env start in
  transport env 0 = reply 202 None
  /\ result.1 = Raised (TypeError
                          ("can only concatenate str (not " +:+ double_quote
                           +:+ "NoneType" +:+ double_quote +:+ ") to str"))
  /\ requests_of GET (log result.2) = []
  /\ sent result.2 = 1%nat.
Proof. vm_compute. repeat split. Qed.

Lemma create_init_request_fields_witness :
  CoFlow.create_init_request tenant "//repo/projA/studyB/caseC"
    (world [] offline) start
  = (Returned
       {| initializationInfo :=
            {| repositoryName := "repo";
               projectName := "projA";
               studyName := "studyB" |};
          editableInfo := {| systemOfUnits := "SI"; caseName := "caseC" |} |},
     start).
Proof.
  apply (create_init_request_fields tenant "//repo/projA/studyB/caseC"
           (world [] offline) start
           {| urllib.scheme := ""; urllib.netloc := "repo";
              urllib.path := "/projA/studyB/caseC";
              urllib.query := ""; urllib.fragment := "" |}
           "" "projA" "studyB" "caseC" []).
  - vm_compute. reflexivity.
  - vm_compute. reflexivity.
Defined.

(** C2, the claim as stated fails: in "repo/projA/studyB/caseC" nothing
    marks "repo" as a network location, so the repository name of the init
    request is empty. *)
Lemma create_init_request_bare_path :
  CoFlow.create_init_request tenant "repo/projA/studyB/caseC"
    (world [] offline) start
  = (Returned
       {| initializationInfo :=
            {| repositoryName := "";
               projectName := "projA";
               studyName := "studyB" |};
          editableInfo := {| systemOfUnits := "SI"; caseName := "caseC" |} |},
     start)
  /\ "" <> "repo".
Proof. split; [ vm_compute; reflexivity | discriminate ]. Qed.

Lemma create_init_request_malformed_witness :
  (CoFlow.create_init_request tenant "//repo/projA/studyB"
     (world [] offline) start).1
  = Raised (IndexError "list index out of range")
  /\ (CoFlow.create_init_request tenant "//[repo/projA/studyB/caseC"
        (world [] offline) start).1
     = Raised (ValueError "Invalid IPv6 URL").
Proof.
  split.
  - destruct (create_init_request_malformed tenant "//repo/projA/studyB"
                (world [] offline) start) as (E & _).
    + intros pathAsUrl H. vm_compute in H. injection H as <-.
      vm_compute. lia.
    + rewrite E. reflexivity.
  - destruct (create_init_request_malformed tenant
                "//[repo/projA/studyB/caseC"
                (world [] offline) start) as (E & _).
    + intros pathAsUrl H. vm_compute in H. discriminate H.
    + rewrite E. reflexivity.
Defined.

Lemma run_output_keys_witness :
  (SteadyStateModel.run 5 bhp_model bhp_inputs
     (world happy_script offline) start).1
  = Returned {[ "bhp" := Float 123456 (-2) ]}
  /\ dom ({[ "bhp" := Float 123456 (-2) ]} : gmap string Value)
     = declared_aliases bhp_model.
Proof.
  split; [ vm_compute; reflexivity | ].
  destruct (run_output_keys 5 bhp_model bhp_inputs
              (world happy_script offline) start
              {[ "bhp" := Float 123456 (-2) ]}
              (SteadyStateModel.run 5 bhp_model bhp_inputs
                 (world happy_script offline) start).2)
    as (_ & payload & ss & s1 & s2 & obj & s3 & results
        & Hin & Hopen & Hrun & Hquery & Hprops & Hall).
  - vm_compute. reflexivity.
  - vm_compute in Hin. injection Hin as <-.
    vm_compute in Hopen. injection Hopen as <- <-.
    vm_compute in Hrun. injection Hrun as <-.
    vm_compute in Hquery. injection Hquery as <- <-.
    vm_compute in Hprops. injection Hprops as <-.
    apply Hall.
    + vm_compute. apply NoDup_singleton.
    + intros p Hp. vm_compute in Hp. vm_compute. exact Hp.
Defined.

(** C7, the claim as stated fails: [run] returns a mapping with no key when
    the query result is empty, and a mapping without "bhp" when a second
    alias is declared for the same path, although "bhp" is a declared
    alias in both cases. *)
Lemma run_output_keys_missing_alias :
  (SteadyStateModel.run 5 bhp_model bhp_inputs
     (world empty_result_script offline) start).1 = Returned ∅
  /\ dom (∅ : gmap string Value) <> declared_aliases bhp_model
  /\ (SteadyStateModel.run 5 twin_model ∅
        (world twin_script offline) start).1
     = Returned {[ "pressure" := Float 123456 (-2) ]}
  /\ dom ({[ "pressure" := Float 123456 (-2) ]} : gmap string Value)
     <> declared_aliases twin_model.
Proof.
  split; [ vm_compute; reflexivity | ]. split.
  { intros H. assert (Hin : "bhp" ∈ declared_aliases bhp_model)
      by (unfold declared_aliases; simpl; set_solver).
    rewrite <- H, dom_empty_L in Hin. by apply not_elem_of_empty in Hin. }
  split; [ vm_compute; reflexivity | ].
  intros H. assert (Hin : "bhp" ∈ declared_aliases twin_model)
    by (unfold declared_aliases; simpl; set_solver).
  rewrite <- H, dom_singleton_L in Hin.
  apply elem_of_singleton in Hin. discriminate Hin.
Qed.

Lemma run_undeclared_path_KeyError_witness :
  exists p,
    (p ∉ declared_paths bhp_model)
    /\ (SteadyStateModel.run 5 bhp_model bhp_inputs
          (world stray_script offline) start).1
       = Raised (KeyError p).
Proof.
  pose (env := world stray_script offline).
  pose (payload := [ {| propertyPath := pipe_path; unit_ := "psi";
                        value := Float 2667761 (-3) |} ]).
  pose (s1 := (CoFlow.open_steady_state 5 tenant "//repo/projA/studyB/caseC"
                 1 1024 env start).2).
  pose (s2 := (SteadyState.run 5 bhp_session (RunBody payload) env s1).2).
  pose (query := QueryBody [ {| query_propertyPath := bhp_path;
                                query_unit := "psi" |} ]).
  pose (s3 := (SteadyState.query bhp_session query env s2).2).
  destruct (run_undeclared_path_KeyError 5 bhp_model bhp_inputs env start
              payload bhp_session s1 s2
              {| key_statusCode := None; key_status := None;
                 key_message := None;
                 key_properties := Some [bhp_result; stray_result] |}
              s3 [bhp_result; stray_result])
    as (_ & p & _ & Hp & _ & _ & Hrun).
  - vm_compute. reflexivity.
  - vm_compute. reflexivity.
  - vm_compute. reflexivity.
  - vm_compute. reflexivity.
  - reflexivity.
  - exists stray_result. split; [ right; left | ].
    unfold declared_paths. simpl. intros Hin.
    apply list_elem_of_singleton in Hin. discriminate Hin.
  - exists p. split; [ exact Hp | ].
    fold env.
    rewrite (Hrun (CoFlow.close_steady_state tenant bhp_session env s3).2).
    + reflexivity.
    + vm_compute. reflexivity.
Defined.

(** ** Failure to initialise the model *)

Lemma close_state_state_session_raises self session_url env s :
  exists ex s',
    CoFlow._close_state_state_session self session_url env s = (Raised ex, s')
    /\ forall msg, ex <> SessionError msg.
Proof.
  cbv [CoFlow._close_state_state_session requests.delete requests.request
       requests.Response_codes mbind M_bind raise].
  destruct (transport env (sent s)); eexists; eexists; split;
    try reflexivity; done.
Qed.

(** The last step of [open_steady_state] never ends with the [SessionError]
    it is written to raise. *)
Lemma initialize_never_SessionError self path location headers env s msg :
  (CoFlow.initialize self path location headers env s).1
  <> Raised (SessionError msg).
Proof.
  unfold CoFlow.initialize.
  cbv [CoFlow.location_replace debug_print print time.sleep requests.post
       requests.request mbind M_bind mret M_ret ask emit raise].
  destruct location as [location |]; [ | done ].
  cbn [sent log]. rewrite create_init_request_run.
  destruct (urllib.urlsplit _ path) as [err | pathAsUrl]; [ done | ].
  destruct (Str.split "/" (urllib.path pathAsUrl))
    as [| c0 [| c1 [| c2 [| c3 rest]]]]; try done.
  destruct (debug_output env); cbn [sent log];
    (destruct (transport env (sent s)) as [response | failure]; [ | done ]);
    (destruct (negb _); [ | done ]);
    match goal with
    | |- context [ CoFlow._close_state_state_session ?c ?u env ?st ] =>
        destruct (close_state_state_session_raises c u env st)
          as (ex & s' & -> & Hex)
    end; simpl; intros H; injection H as ->; by eapply Hex.
Qed.

(** C3, what the code does.  The session comes up, the init request is
    answered with status 500 and the clean-up DELETE with status 200:
    [open_steady_state] sends the DELETE and then raises [AttributeError]
    from the clean-up, not [SessionError]. *)
Theorem open_steady_state_init_refused :
  let result := CoFlow.open_steady_state 5 tenant "//repo/projA/studyB/caseC"
                  1 1024 (world init_refused_script offline) start in
  result.1 = Raised (AttributeError
                       "'Response' object has no attribute 'codes'")
  /\ requests_of DELETE (log result.2)
     = ["https://tenant/api/sessions/7/current/api/v1/steady-state/session"]
  /\ forall msg, result.1 <> Raised (SessionError msg).
Proof.
  vm_compute. split; [ reflexivity | ]. split; [ reflexivity | ].
  intros msg H. discriminate H.
Qed.

(** * Further properties *)

(** ** The payloads of the facade *)

Lemma input_payload_entries items input_values acc payload :
  SteadyStateModel.input_payload items input_values acc = inr payload <->
  exists entries,
    payload = acc ++ entries
    /\ Forall2 (input_entry input_values) items entries.
Proof.
  revert acc. induction items as [| [alias prop] items IH]; intros acc; simpl.
  - split.
    + intros [= <-]. exists []. rewrite app_nil_r. split; [ done | constructor ].
    + intros (entries & -> & Hall). apply Forall2_nil_inv_l in Hall as ->.
      by rewrite app_nil_r.
  - destruct (input_values !! alias) as [v |] eqn:Hv.
    + rewrite IH. split.
      * intros (entries & -> & Hall).
        exists ({| propertyPath := prop_path prop; unit_ := prop_unit prop;
                   value := v |} :: entries).
        split; [ by rewrite <- app_assoc | ].
        constructor; [ done | done ].
      * intros (entries & -> & Hall).
        apply Forall2_cons_inv_l in Hall
          as (entry & entries' & (Hp & Hu & Hval) & Hall & ->).
        exists entries'. split; [ | done ].
        simpl in *. rewrite Hv in Hval. destruct entry; simplify_eq/=.
        by rewrite <- app_assoc.
    + split; [ done | ].
      intros (entries & -> & Hall).
      apply Forall2_cons_inv_l in Hall
        as (entry & entries' & (_ & _ & Hval) & _ & _).
      simpl in Hval. congruence.
Qed.

(** X1. The run payload is built from [input_defs] alone: [run] gets past
    its first loop exactly when every declared input alias has a value, and
    the payload then has one entry per definition, in the order of the
    definitions, with the path and unit of the definition and the value
    supplied under its alias.  Values under other keys play no part. *)
Theorem input_payload_in_order items input_values payload :
  SteadyStateModel.input_payload items input_values [] = inr payload <->
  Forall2 (input_entry input_values) items payload.
Proof.
  rewrite input_payload_entries. split.
  - intros (entries & -> & Hall). done.
  - intros Hall. by exists payload.
Qed.

Lemma input_payload_missing before alias prop after input_values acc :
  Forall (fun item : string * PropertyDef =>
            is_Some (input_values !! fst item)) before ->
  input_values !! alias = None ->
  SteadyStateModel.input_payload (before ++ (alias, prop) :: after)
    input_values acc
  = inl (KeyError alias).
Proof.
  intros Hbefore Hmissing. revert acc.
  induction Hbefore as [| [key def] before [v Hv] _ IH]; intros acc; simpl.
  - by rewrite Hmissing.
  - simpl in Hv. rewrite Hv. apply IH.
Qed.

(** X2. When an input alias has no value, [SteadyStateModel.run] raises
    [KeyError] for the first such alias of [input_defs] before anything else
    happens: no session is opened, no request is sent and nothing is
    printed. *)
Theorem run_missing_input
    fuel self input_values env s before alias prop after :
  SteadyStateModel.input_defs self = before ++ (alias, prop) :: after ->
  Forall (fun item : string * PropertyDef =>
            is_Some (input_values !! fst item)) before ->
  input_values !! alias = None ->
  SteadyStateModel.run fuel self input_values env s
  = (Raised (KeyError alias), s).
Proof.
  intros Hdefs Hbefore Hmissing. unfold SteadyStateModel.run.
  rewrite Hdefs, (input_payload_missing _ _ _ _ _ _ Hbefore Hmissing).
  reflexivity.
Qed.

Lemma output_payload_general items op lk :
  (SteadyStateModel.output_payload items op lk).1
  = op ++ map query_entry items
  /\ forall p,
       (SteadyStateModel.output_payload items op lk).2 !! p
       = match last (filter (fun item : string * PropertyDef =>
                               prop_path (snd item) = p) items) with
         | Some item => Some item
         | None => lk !! p
         end.
Proof.
  revert op lk. induction items as [| [key prop] items IH]; intros op lk.
  - simpl. split; [ by rewrite app_nil_r | done ].
  - simpl. destruct (IH (op ++ [query_entry (key, prop)])
                        (<[prop_path prop := (key, prop)]> lk)) as [IH1 IH2].
    split.
    + unfold query_entry in *. simpl in *. rewrite IH1, <- app_assoc. done.
    + intros p. unfold query_entry in *. simpl in *. rewrite IH2.
      rewrite filter_cons. simpl. destruct (decide (prop_path prop = p)) as [<- | Hne].
      * rewrite last_cons, lookup_insert_eq.
        destruct (last _); done.
      * rewrite lookup_insert_ne by done. done.
Qed.

(** X3. The query payload lists the output definitions in order, one entry
    per definition, and the lookup that translates the result maps each
    declared path to the last definition that declares it: when two aliases
    share a path the later one takes it over. *)
Theorem output_payload_last_wins items :
  (SteadyStateModel.output_payload items [] ∅).1 = map query_entry items
  /\ forall p,
       (SteadyStateModel.output_payload items [] ∅).2 !! p
       = last (filter (fun item : string * PropertyDef =>
                         prop_path (snd item) = p) items).
Proof.
  destruct (output_payload_general items [] ∅) as [H1 H2].
  split; [ done | ]. intros p. rewrite H2, lookup_empty.
  destruct (last _); done.
Qed.

Lemma translate_lookup lk results out output alias :
  SteadyStateModel.translate lk results out = inr output ->
  output !! alias
  = match last (filter (fun entry => result_alias lk entry = Some alias)
                       results) with
    | Some entry => Some (value entry)
    | None => out !! alias
    end.
Proof.
  revert out. induction results as [| r results IH]; intros out Ht; simpl in Ht.
  - by simplify_eq.
  - destruct (lk !! propertyPath r) as [[key def] |] eqn:Hl; [ | done ].
    assert (Hr : result_alias lk r = Some key)
      by (unfold result_alias; by rewrite Hl).
    rewrite (IH _ Ht), filter_cons.
    destruct (decide (result_alias lk r = Some alias)) as [Heq | Hne].
    + rewrite Hr in Heq. simplify_eq.
      rewrite last_cons, lookup_insert_eq. destruct (last _); done.
    + rewrite lookup_insert_ne by congruence. done.
Qed.

(** X4. In the mapping [run] builds from a query result, an alias holds the
    value of the last entry of the result whose path is declared under that
    alias, and is absent when the result has no such entry: a repeated path
    overwrites, and units are never looked at. *)
Theorem translate_last_entry lk results output :
  SteadyStateModel.translate lk results ∅ = inr output ->
  forall alias,
    output !! alias
    = value <$> last (filter (fun entry => result_alias lk entry = Some alias)
                             results).
Proof.
  intros Ht alias. rewrite (translate_lookup _ _ _ _ alias Ht), lookup_empty.
  destruct (last _); done.
Qed.

(** X5. An exception of [close_steady_state] is the one [run] ends with,
    whatever the body of the [try] did: it replaces the exception of a
    failed run or query, and it discards the output of a successful one. *)
Theorem run_close_raises
    fuel self input_values env s payload ss s1 result s2 ex s3 :
  SteadyStateModel.input_payload
    (SteadyStateModel.input_defs self) input_values [] = inr payload ->
  CoFlow.open_steady_state fuel (SteadyStateModel.client self)
    (SteadyStateModel.model_path self) 1 1024 env s = (Returned ss, s1) ->
  SteadyStateModel.run_model fuel ss payload
    (SteadyStateModel.output_payload
       (SteadyStateModel.output_defs self) [] ∅).1
    (SteadyStateModel.output_payload
       (SteadyStateModel.output_defs self) [] ∅).2 env s1 = (result, s2) ->
  result <> Unfinished ->
  CoFlow.close_steady_state (SteadyStateModel.client self) ss env s2
  = (Raised ex, s3) ->
  SteadyStateModel.run fuel self input_values env s = (Raised ex, s3).
Proof.
  intros Hin Hopen Hbody Hfinished Hclose.
  rewrite (run_after_open _ _ _ _ _ _ Hin).
  destruct (SteadyStateModel.output_payload _ _ _) as [op lk]. simpl in Hbody.
  rewrite Hopen, Hbody. destruct result; [ | | done ]; by rewrite Hclose.
Qed.

(** ** The session-status loop, continued *)

Section SessionStatusLoop.

Context (self : CoFlow.t) (location : string)
        (headers : list (string * string)) (env : Env).

Lemma poll_status_after_pending n fuel s :
  (forall i, (i < n)%nat ->
     reports_session_status (transport env (sent s + i)%nat) 100) ->
  CoFlow.poll_status (n + fuel) self (Some location) headers env s
  = CoFlow.poll_status fuel self (Some location) headers env
      {| sent := (sent s + n)%nat;
         log := log s
                ++ concat (replicate n
                             (provisioning_cycle self location headers)) |}.
Proof.
  revert s. induction n as [| n IH]; intros s Hpending.
  - destruct s as [k l]. simpl. rewrite Nat.add_0_r, app_nil_r. reflexivity.
  - assert (H0 : reports_session_status (transport env (sent s)) 100).
    { specialize (Hpending O). rewrite Nat.add_0_r in Hpending.
      apply Hpending. lia. }
    change (S n + fuel)%nat with (S (n + fuel)).
    rewrite (poll_status_step _ _ _ _ _ _ _ H0).
    change (100 =? 100) with true. cbv iota. rewrite IH.
    + cbn [sent log replicate concat]. rewrite <- !app_assoc.
      replace (S (sent s) + n)%nat with (sent s + S n)%nat by lia.
      reflexivity.
    + intros i Hi. cbn [sent].
      replace (S (sent s) + i)%nat with (sent s + S i)%nat by lia.
      apply Hpending. lia.
Qed.

(** X6. A status poll that is not answered with 200 ends the loop with
    [SessionError], and a poll that fails in transport with the exception of
    the transport, however many polls found Pending before; nothing is
    retried. *)
Theorem poll_status_poll_fails n fuel s :
  (n < fuel)%nat ->
  (forall i, (i < n)%nat ->
     reports_session_status (transport env (sent s + i)%nat) 100) ->
  let polled :=
    {| sent := (sent s + n + 1)%nat;
       log := log s
              ++ concat (replicate n (provisioning_cycle self location headers))
              ++ [Request GET (CoFlow.url self +:+ location) headers None] |} in
  (forall response,
     transport env (sent s + n)%nat = Responds response ->
     Response.status_code response <> 200 ->
     CoFlow.poll_status fuel self (Some location) headers env s
     = (Raised (SessionError
                  ("Cannot get session status: "
                   +:+ lookup_status_code (codes_dict env)
                         (Response.status_code response))),
        polled))
  /\ (forall msg,
        transport env (sent s + n)%nat = Fails msg ->
        CoFlow.poll_status fuel self (Some location) headers env s
        = (Raised (RequestException msg), polled)).
Proof.
  intros Hfuel Hpending polled.
  replace fuel with (n + S (fuel - n - 1))%nat by lia.
  rewrite (poll_status_after_pending _ _ _ Hpending).
  cbn [CoFlow.poll_status].
  cbv [str_add requests.get requests.request mbind M_bind mret M_ret ask raise].
  cbn [sent log]. subst polled. split.
  - intros response Ht Hcode. rewrite Ht.
    apply Z.eqb_neq in Hcode. unfold requests.codes_OK. rewrite Hcode.
    cbn [negb]. rewrite <- !app_assoc.
    replace (S (sent s + n)) with (sent s + n + 1)%nat by lia. reflexivity.
  - intros msg Ht. rewrite Ht. rewrite <- !app_assoc.
    replace (S (sent s + n)) with (sent s + n + 1)%nat by lia. reflexivity.
Qed.

(** X7. The loop has no bound of its own: as long as every poll finds
    Pending it keeps polling, one request and one second of sleep per turn,
    and never returns or raises. *)
Theorem poll_status_never_gives_up fuel s :
  (forall i, reports_session_status (transport env (sent s + i)%nat) 100) ->
  CoFlow.poll_status fuel self (Some location) headers env s
  = (Unfinished,
     {| sent := (sent s + fuel)%nat;
        log := log s
               ++ concat (replicate fuel
                            (provisioning_cycle self location headers)) |})
  /\ sleeps (concat (replicate fuel
                       (provisioning_cycle self location headers)))
     = replicate fuel 1.
Proof.
  intros Hpending. split.
  - replace fuel with (fuel + 0)%nat at 1 by lia.
    rewrite poll_status_after_pending by (intros; apply Hpending).
    reflexivity.
  - clear. induction fuel as [| fuel IH]; [ reflexivity | ].
    simpl. unfold sleeps in *. simpl. rewrite IH. reflexivity.
Qed.

End SessionStatusLoop.

(** ** The run-status loop, continued *)

Section RunStatusLoopErrors.

Context (self : SteadyState.t) (headers : list (string * string)) (env : Env).

Lemma run_poll_after_pending pending fuel s :
  (forall i status, pending !! i = Some status ->
     terminal status = false
     /\ exists m, reports_run_status (transport env (sent s + i)%nat) status m) ->
  SteadyState.run_poll (length pending + fuel) self headers env s
  = SteadyState.run_poll fuel self headers env
      {| sent := (sent s + length pending)%nat;
         log := log s ++ flat_map (run_poll_cycle self headers) pending |}.
Proof.
  revert s. induction pending as [| status pending IH]; intros s Hpending.
  - destruct s as [k l]. simpl. rewrite Nat.add_0_r, app_nil_r. reflexivity.
  - destruct (Hpending O status eq_refl) as [Hnt [m Hm]].
    rewrite Nat.add_0_r in Hm.
    change (length (status :: pending) + fuel)%nat
      with (S (length pending + fuel)).
    rewrite (run_poll_step _ _ _ _ _ _ _ Hm), Hnt, IH.
    + cbn [sent log length flat_map]. rewrite <- !app_assoc.
      replace (S (sent s) + length pending)%nat
        with (sent s + S (length pending))%nat by lia.
      reflexivity.
    + intros i st Hi. cbn [sent].
      replace (S (sent s) + i)%nat with (sent s + S i)%nat by lia.
      by apply Hpending.
Qed.

(** X8. The run-status loop has no bound either: while every poll reports a
    status other than "Succeeded" and "Failed", whatever it is, the loop
    keeps polling and never returns or raises.  Each turn sends one GET of
    the run resource, prints the status that was reported and sleeps one
    second; after [fuel] turns the log holds exactly these turns, for the
    statuses the service reported, and nothing else. *)
Theorem run_poll_never_gives_up fuel s :
  (forall i, exists status m,
     reports_run_status (transport env (sent s + i)%nat) status m
     /\ terminal status = false) ->
  exists statuses,
    length statuses = fuel
    /\ (forall i status, statuses !! i = Some status ->
          terminal status = false
          /\ exists m,
               reports_run_status (transport env (sent s + i)%nat) status m)
    /\ SteadyState.run_poll fuel self headers env s
       = (Unfinished,
          {| sent := (sent s + fuel)%nat;
             log := log s ++ flat_map (run_poll_cycle self headers) statuses |})
    /\ effects (flat_map (run_poll_cycle self headers) statuses)
       = concat (replicate fuel
                   [Request GET (SteadyState.steady_state_url self +:+ "/run")
                            headers None;
                    Sleep 1]).
Proof.
  revert s. induction fuel as [| fuel IH]; intros s Hall.
  - exists []. split; [ reflexivity | ]. split; [ intros i status Hi; done | ].
    split; [ | reflexivity ].
    destruct s as [k l]. simpl. by rewrite Nat.add_0_r, app_nil_r.
  - destruct (Hall O) as (status & m & Hs & Hnt). rewrite Nat.add_0_r in Hs.
    destruct (IH {| sent := S (sent s);
                    log := log s ++ run_poll_cycle self headers status |})
      as (statuses & Hlen & Hreported & Hrun & Heffects).
    { intros i. cbn [sent].
      replace (S (sent s) + i)%nat with (sent s + S i)%nat by lia.
      apply Hall. }
    exists (status :: statuses). split; [ simpl; by rewrite Hlen | ]. split.
    { intros [| i] st Hi.
      - simpl in Hi. injection Hi as <-. rewrite Nat.add_0_r.
        split; [ exact Hnt | by exists m ].
      - simpl in Hi. destruct (Hreported i st Hi) as [Hterminal [m' Hm']].
        split; [ exact Hterminal | ]. exists m'. cbn [sent] in Hm'.
        replace (sent s + S i)%nat with (S (sent s) + i)%nat by lia.
        exact Hm'. }
    split.
    + rewrite (run_poll_step _ _ _ _ _ _ _ Hs), Hnt, Hrun.
      cbn [sent log flat_map]. rewrite <- !app_assoc.
      replace (S (sent s) + fuel)%nat with (sent s + S fuel)%nat by lia.
      reflexivity.
    + cbn [flat_map replicate concat]. unfold effects in *.
      rewrite List.filter_app, Heffects. reflexivity.
Qed.

(** X9. A status poll of the run that is not answered with 200 ends
    [run_poll] with [SessionError], carrying the text of the response and
    the description of its status, after one second of sleep for each poll
    before it. *)
Theorem run_poll_poll_fails pending fuel s response :
  (length pending < fuel)%nat ->
  (forall i status, pending !! i = Some status ->
     terminal status = false
     /\ exists m, reports_run_status (transport env (sent s + i)%nat) status m) ->
  transport env (sent s + length pending)%nat = Responds response ->
  Response.status_code response <> 200 ->
  (SteadyState.run_poll fuel self headers env s).1
  = Raised (SessionError
              (Response.text response +:+ ": "
               +:+ lookup_status_code (codes_dict env)
                     (Response.status_code response)))
  /\ sent (SteadyState.run_poll fuel self headers env s).2
     = (sent s + length pending + 1)%nat
  /\ effects (log (SteadyState.run_poll fuel self headers env s).2)
     = effects (log s ++ flat_map (run_poll_cycle self headers) pending
                ++ [Request GET (SteadyState.steady_state_url self +:+ "/run")
                            headers None]).
Proof.
  intros Hfuel Hpending Ht Hcode.
  replace fuel with (length pending + S (fuel - length pending - 1))%nat
    by lia.
  rewrite (run_poll_after_pending _ _ _ Hpending).
  cbn [SteadyState.run_poll].
  cbv [requests.get requests.request debug_print status_error_text print
       mbind M_bind mret M_ret ask emit raise].
  cbn [sent log]. rewrite Ht.
  apply Z.eqb_neq in Hcode. unfold requests.codes_OK. rewrite Hcode.
  cbn [negb].
  destruct (debug_output env); cbn [fst snd sent log];
    (split; [ reflexivity | ]); (split; [ lia | ]);
    unfold effects; rewrite <- ?app_assoc, !List.filter_app; reflexivity.
Qed.

End RunStatusLoopErrors.

(** ** A session that comes up *)

(** X10. When the session request is accepted with a Location, [n] polls find
    Pending and the next finds Running, the model path can be taken apart
    and the init request is answered with 201, [open_steady_state] returns a
    client for the URL made of the client URL, the Location without
    "/status" and "/current/api/v1/steady-state", with the API key of the
    client.  It has sent [n + 3] requests, slept one second per Pending poll
    and three seconds once, between the last poll and the init request, and
    sent no DELETE. *)
Theorem open_steady_state_returns
    n fuel self path cores mem env s created location initialized
    pathAsUrl first project study target_case rest :
  (n < fuel)%nat ->
  transport env (sent s) = Responds created ->
  Response.status_code created = 202 ->
  Response.headers created !! "Location" = Some location ->
  (forall i, (i < n)%nat ->
     reports_session_status (transport env (sent s + 1 + i)%nat) 100) ->
  reports_session_status (transport env (sent s + 1 + n)%nat) 200 ->
  urllib.urlsplit (urllib_checks env) path = inr pathAsUrl ->
  Str.split "/" (urllib.path pathAsUrl)
    = first :: project :: study :: target_case :: rest ->
  transport env (sent s + n + 2)%nat = Responds initialized ->
  Response.status_code initialized = 201 ->
  let ss_url := CoFlow.url self +:+ Str.replace "/status" "" location
                +:+ "/current/api/v1/steady-state" in
  let init_request :=
    {| initializationInfo :=
         {| repositoryName := urllib.netloc pathAsUrl;
            projectName := project;
            studyName := study |};
       editableInfo := {| systemOfUnits := "SI"; caseName := target_case |} |} in
  let result := CoFlow.open_steady_state fuel self path cores mem env s in
  result.1 = Returned {| SteadyState.steady_state_url := ss_url;
                         SteadyState.api_key := CoFlow.api_key self |}
  /\ sent result.2 = (sent s + n + 3)%nat
  /\ effects (log result.2)
     = effects (log s)
       ++ [Call (OpenSteadyState path);
           Request POST (CoFlow.url self +:+ "/sessions")
                   (bearer (CoFlow.api_key self))
                   (Some (SessionRequest cores mem))]
       ++ concat (replicate n
                    [Request GET (CoFlow.url self +:+ location)
                             (bearer (CoFlow.api_key self)) None;
                     Sleep 1])
       ++ [Request GET (CoFlow.url self +:+ location)
                   (bearer (CoFlow.api_key self)) None;
           Sleep 3;
           Request POST (ss_url +:+ "/session") (bearer (CoFlow.api_key self))
                   (Some (InitBody init_request))].
Proof.
  intros Hfuel Hcreate H202 Hloc Hpending Hrunning Hsplit Hcomponents
         Hinit H201 ss_url init_request result.
  subst result. rewrite (open_steady_state_posted _ _ _ _ _ _ _ _ Hcreate).
  cbv zeta. rewrite H202, Hloc.
  change ((202 =? 401) || (202 =? 405)) with false.
  change (negb (202 =? 202)) with false. cbv iota.
  rewrite bind_run.
  replace fuel with (n + S (fuel - n - 1))%nat by lia.
  rewrite poll_status_after_pending.
  2: { intros i Hi. cbn [sent].
       replace (S (sent s) + i)%nat with (sent s + 1 + i)%nat by lia.
       by apply Hpending. }
  rewrite (poll_status_step _ _ _ _ _ _ 200).
  2: { cbn [sent].
       replace (S (sent s) + n)%nat with (sent s + 1 + n)%nat by lia.
       exact Hrunning. }
  change (200 =? 100) with false. cbv iota.
  change (poll_status_end 200) with (Returned tt). cbv iota beta.
  unfold CoFlow.initialize.
  cbv [CoFlow.location_replace debug_print print time.sleep requests.post
       requests.request mbind M_bind mret M_ret ask emit raise].
  cbn [sent log]. rewrite create_init_request_run, Hsplit, Hcomponents.
  cbn [sent log].
  replace (S (S (sent s) + n)) with (sent s + n + 2)%nat by lia.
  assert (Hcycles : forall k,
            effects (concat (replicate k
                       (provisioning_cycle self location
                          (bearer (CoFlow.api_key self)))))
            = concat (replicate k
                        [Request GET (CoFlow.url self +:+ location)
                                 (bearer (CoFlow.api_key self)) None;
                         Sleep 1])).
  { induction k as [| k IH]; [ reflexivity | ].
    simpl. unfold effects in *. simpl. rewrite IH. reflexivity. }
  destruct (debug_output env); cbn [sent log]; rewrite Hinit;
    unfold requests.codes_CREATED; rewrite H201;
    change (negb (201 =? 201)) with false; cbv iota; cbn [fst snd sent log];
    (split; [ reflexivity | ]); (split; [ lia | ]);
    unfold effects in *; rewrite <- ?app_assoc, !List.filter_app, Hcycles;
    reflexivity.
Qed.

(** ** Status codes and their descriptions *)

Lemma CoFlowSessionStatus_by_value_aux code status :
  CoFlowSessionStatus.of_value code = Some status
  <-> CoFlowSessionStatus.value status = code.
Proof.
  unfold CoFlowSessionStatus.of_value. cbn [List.find CoFlowSessionStatus.value].
  split.
  - destruct (0 =? code) eqn:E0;
      [ apply Z.eqb_eq in E0; intros; by simplify_eq | ].
    destruct (100 =? code) eqn:E1;
      [ apply Z.eqb_eq in E1; intros; by simplify_eq | ].
    destruct (200 =? code) eqn:E2;
      [ apply Z.eqb_eq in E2; intros; by simplify_eq | ].
    destruct (300 =? code) eqn:E3;
      [ apply Z.eqb_eq in E3; intros; by simplify_eq | done ].
  - intros <-. by destruct status.
Qed.

(** X11. Looking a session status up by value and reading the value of a
    status are inverse to each other, the comparison of a status with an
    integer agrees with them, and the lookup fails exactly on the integers
    other than 0, 100, 200 and 300. *)
Theorem CoFlowSessionStatus_by_value code status :
  (CoFlowSessionStatus.of_value code = Some status
   <-> CoFlowSessionStatus.value status = code)
  /\ (CoFlowSessionStatus.eq_int status code = true
      <-> CoFlowSessionStatus.of_value code = Some status)
  /\ (CoFlowSessionStatus.of_value code = None
      <-> code <> 0 /\ code <> 100 /\ code <> 200 /\ code <> 300).
Proof.
  pose proof (CoFlowSessionStatus_by_value_aux code) as Haux.
  split; [ apply Haux | ]. split.
  - unfold CoFlowSessionStatus.eq_int. rewrite Z.eqb_eq. symmetry. apply Haux.
  - split.
    + intros Hnone. repeat split; intros ->.
      * pose proof (proj2 (Haux CoFlowSessionStatus.Unknown) eq_refl).
        congruence.
      * pose proof (proj2 (Haux CoFlowSessionStatus.Pending) eq_refl).
        congruence.
      * pose proof (proj2 (Haux CoFlowSessionStatus.Running) eq_refl).
        congruence.
      * pose proof (proj2 (Haux CoFlowSessionStatus.Failed) eq_refl).
        congruence.
    + intros (H0 & H1 & H2 & H3). clear Haux.
      destruct (CoFlowSessionStatus.of_value code) as [found |] eqn:E;
        [ | done ].
      apply CoFlowSessionStatus_by_value_aux in E.
      destruct found; simpl in E; congruence.
Qed.

(** X12. [lookup_coflow_status_code] never fails: it names the status for
    0, 100, 200 and 300, and reports every other integer as unrecognized. *)
Theorem lookup_coflow_status_code_total code :
  (exists status,
     CoFlowSessionStatus.value status = code
     /\ lookup_coflow_status_code code
        = "Status: " +:+ CoFlowSessionStatus.name status
          +:+ ", Code: " +:+ pretty code)
  \/ ((forall status, CoFlowSessionStatus.value status <> code)
      /\ lookup_coflow_status_code code
         = "Error: Unrecognized status code " +:+ pretty code +:+ ".").
Proof.
  unfold lookup_coflow_status_code.
  destruct (CoFlowSessionStatus.of_value code) as [status |] eqn:E.
  - left. exists status.
    apply (CoFlowSessionStatus_by_value_aux code status) in E.
    by rewrite E.
  - right. split; [ | done ]. intros status Hv.
    apply (CoFlowSessionStatus_by_value_aux code status) in Hv. congruence.
Qed.

Lemma find_first {A} (f : A -> bool) before x after :
  Forall (fun y => f y = false) before ->
  f x = true ->
  List.find f (before ++ x :: after) = Some x.
Proof.
  intros Hbefore Hx. induction Hbefore as [| y before Hy _ IH]; simpl.
  - by rewrite Hx.
  - by rewrite Hy.
Qed.

Lemma find_none {A} (f : A -> bool) l :
  Forall (fun y => f y = false) l -> List.find f l = None.
Proof.
  intros Hall. induction Hall as [| y l Hy _ IH]; simpl; [ done | ].
  by rewrite Hy.
Qed.

(** X13. [lookup_status_code] describes a code by the first name the table
    binds to it, whatever other names follow, and reports a code the table
    does not bind as unrecognized. *)
Theorem lookup_status_code_first_name codes code :
  (forall before key after,
     codes = before ++ (key, code) :: after ->
     Forall (fun entry : string * Z => snd entry <> code) before ->
     lookup_status_code codes code
     = "Status: " +:+ key +:+ ", Code: " +:+ pretty code)
  /\ (Forall (fun entry : string * Z => snd entry <> code) codes ->
      lookup_status_code codes code
      = "Error: Unrecognized status code " +:+ pretty code +:+ ".").
Proof.
  unfold lookup_status_code. split.
  - intros before key after -> Hbefore.
    rewrite (find_first _ before (key, code) after); [ done | | ].
    + eapply Forall_impl; [ exact Hbefore | ].
      intros entry Hne. by apply Z.eqb_neq.
    + apply Z.eqb_refl.
  - intros Hall. rewrite find_none; [ done | ].
    eapply Forall_impl; [ exact Hall | ].
    intros entry Hne. by apply Z.eqb_neq.
Qed.

(** ** The init request, continued *)

(** X14. [create_init_request] returns a request exactly when [urlsplit]
    accepts the model path and its URL path has at least three segments
    after the first piece; whether it returns or raises, it sends no
    request and does not sleep. *)
Theorem create_init_request_returns_iff self path env s :
  ((exists request,
      (CoFlow.create_init_request self path env s).1 = Returned request)
   <-> exists pathAsUrl,
         urllib.urlsplit (urllib_checks env) path = inr pathAsUrl
         /\ (3 <= length (tail (Str.split "/" (urllib.path pathAsUrl))))%nat)
  /\ sent (CoFlow.create_init_request self path env s).2 = sent s
  /\ effects (log (CoFlow.create_init_request self path env s).2)
     = effects (log s).
Proof.
  rewrite create_init_request_run.
  destruct (urllib.urlsplit _ path) as [msg | pathAsUrl].
  - split; [ | split ].
    + split; [ intros [? ?]; done | intros (? & ? & _); done ].
    + reflexivity.
    + cbn [snd log]. unfold effects. rewrite List.filter_app, app_nil_r.
      reflexivity.
  - destruct (Str.split "/" (urllib.path pathAsUrl))
      as [| c0 [| c1 [| c2 [| c3 rest]]]] eqn:Hsplit; cbn [fst snd sent log];
      (split; [ split | split ]);
      try reflexivity;
      try (intros [? ?]; done);
      try (intros (? & [= <-] & Hlen); rewrite Hsplit in Hlen;
           simpl in Hlen; lia);
      try (unfold effects; rewrite List.filter_app, app_nil_r; reflexivity).
    + intros _. exists pathAsUrl. rewrite Hsplit. simpl. split; [ done | lia ].
    + intros _. eexists. reflexivity.
Qed.

(** ** Query and close *)

(** X15. [SteadyState.query] sends exactly one request, the POST of the
    query payload, and returns the parsed body exactly when the reply has
    status 200 and a JSON body; a reply with any other status makes it raise
    [SessionError] with the text of the reply and the description of its
    status. *)
Theorem query_returns_iff self request env s :
  let result := SteadyState.query self request env s in
  (forall obj,
     result.1 = Returned obj
     <-> exists response,
           transport env (sent s) = Responds response
           /\ Response.status_code response = 200
           /\ Response.json response = Some obj)
  /\ (forall response,
        transport env (sent s) = Responds response ->
        Response.status_code response <> 200 ->
        result.1 = Raised (SessionError
                             (Response.text response +:+ ": "
                              +:+ lookup_status_code (codes_dict env)
                                    (Response.status_code response))))
  /\ sent result.2 = S (sent s)
  /\ effects (log result.2)
     = effects (log s)
       ++ [Request POST (SteadyState.steady_state_url self +:+ "/query")
                   (bearer (SteadyState.api_key self)) (Some request)].
Proof.
  cbv zeta. unfold SteadyState.query.
  cbv [requests.post requests.request requests.Response_json debug_print
       status_error_text print mbind M_bind mret M_ret ask emit raise].
  unfold requests.codes_OK.
  destruct (transport env (sent s)) as [response | failure].
  - destruct (Response.status_code response =? 200) eqn:Hcode; cbn [negb].
    + apply Z.eqb_eq in Hcode.
      destruct (Response.json response) as [body |] eqn:Hjson;
        cbn [fst snd sent log]; unfold effects; rewrite List.filter_app;
        (split; [ | split; [ | split; reflexivity ] ]);
        try (intros ? [= <-]; congruence).
      * intros obj. split.
        -- intros [= <-]. by exists response.
        -- intros (r & [= <-] & _ & Hj). congruence.
      * intros obj. split; [ done | ].
        intros (r & [= <-] & _ & Hj). congruence.
    + apply Z.eqb_neq in Hcode.
      destruct (debug_output env); cbn [fst snd sent log]; unfold effects;
        rewrite ?List.filter_app; cbn [List.filter app];
        rewrite ?app_nil_r;
        (split; [ | split; [ | split; reflexivity ] ]);
        try (intros ? [= <-] _; reflexivity);
        (intros obj; split; [ done | ]);
        intros (r & [= <-] & H200 & _); congruence.
  - cbn [fst snd sent log]. unfold effects. rewrite List.filter_app.
    split; [ | split; [ | split; reflexivity ] ].
    + intros obj. split; [ done | ]. intros (r & Hr & _). done.
    + intros response Hr. done.
Qed.

(** X16. [close_steady_state] always comes to an end after exactly one
    request, the DELETE of the session, and returns exactly when the reply
    has status 202; a reply with any other status makes it raise
    [SessionError]. *)
Theorem close_steady_state_returns_iff self ss env s :
  let result := CoFlow.close_steady_state self ss env s in
  (result.1 = Returned tt
   <-> exists response,
         transport env (sent s) = Responds response
         /\ Response.status_code response = 202)
  /\ (forall response,
        transport env (sent s) = Responds response ->
        Response.status_code response <> 202 ->
        result.1 = Raised (SessionError
                             (Response.text response +:+ ": "
                              +:+ lookup_status_code (codes_dict env)
                                    (Response.status_code response))))
  /\ result.1 <> Unfinished
  /\ sent result.2 = S (sent s)
  /\ effects (log result.2)
     = effects (log s)
       ++ [Call (CloseSteadyState (SteadyState.steady_state_url ss));
           Request DELETE (SteadyState.steady_state_url ss +:+ "/session")
                   (bearer (CoFlow.api_key self)) None].
Proof.
  cbv zeta. unfold CoFlow.close_steady_state.
  cbv [requests.delete requests.request debug_print status_error_text print
       mbind M_bind mret M_ret ask emit raise].
  unfold requests.codes_ACCEPTED.
  assert (Heffects : forall l1 l2,
            effects (l1 ++ l2) = effects l1 ++ effects l2)
    by (intros; apply List.filter_app).
  destruct env as [tr codes checks dbg].
  cbn [transport codes_dict debug_output].
  destruct dbg; cbv beta iota; cbn [sent log];
    (destruct (tr (sent s)) as [response | failure];
     [ destruct (Response.status_code response =? 202) eqn:Hcode;
       [ apply Z.eqb_eq in Hcode | apply Z.eqb_neq in Hcode ] | ]);
    cbn [negb]; cbv beta iota;
    cbn [transport codes_dict debug_output fst snd sent log];
    rewrite !Heffects; cbn [effects List.filter app];
    rewrite <- ?app_assoc, ?app_nil_r; cbn [app].
  - split; [ split; [ intros _; by exists response | done ] | ].
    split; [ intros r [= <-] Hne; congruence | ]. done.
  - split; [ split; [ done | intros (r & [= <-] & H); congruence ] | ].
    split; [ intros r [= <-] _; reflexivity | ]. done.
  - split; [ split; [ done | intros (r & Hr & _); done ] | ].
    split; [ intros r Hr; done | ]. done.
  - split; [ split; [ intros _; by exists response | done ] | ].
    split; [ intros r [= <-] Hne; congruence | ]. done.
  - split; [ split; [ done | intros (r & [= <-] & H); congruence ] | ].
    split; [ intros r [= <-] _; reflexivity | ]. done.
  - split; [ split; [ done | intros (r & Hr & _); done ] | ].
    split; [ intros r Hr; done | ]. done.
Qed.

(** ** The local session *)

(** X17. [open_steady_state_local] never returns a client: when the local
    service answers the init request with 201 the construction of the
    [SteadyState] fails for want of an API key, and any other status raises
    [SessionError]. *)
Theorem open_steady_state_local_never_returns self path env s :
  let result := open_steady_state_local self path env s in
  (forall ss, result.1 <> Returned ss)
  /\ (forall pathAsUrl first project study target_case rest response,
        urllib.urlsplit (urllib_checks env) path = inr pathAsUrl ->
        Str.split "/" (urllib.path pathAsUrl)
          = first :: project :: study :: target_case :: rest ->
        transport env (sent s) = Responds response ->
        (Response.status_code response = 201 ->
         result.1 = Raised (TypeError
           "SteadyState.__init__() missing 1 required positional argument: 'api_key'"))
        /\ (Response.status_code response <> 201 ->
            result.1 = Raised (SessionError
                                 (Response.text response +:+ ": "
                                  +:+ lookup_status_code (codes_dict env)
                                        (Response.status_code response))))).
Proof.
  cbv zeta. unfold open_steady_state_local. rewrite bind_run.
  rewrite create_init_request_run.
  cbv [requests.post requests.request SteadyState_new status_error_text
       mbind M_bind mret M_ret ask raise].
  unfold requests.codes_CREATED. split.
  - intros ss.
    destruct (urllib.urlsplit _ path) as [msg | pathAsUrl]; [ done | ].
    destruct (Str.split "/" (urllib.path pathAsUrl))
      as [| c0 [| c1 [| c2 [| c3 rest]]]]; try done.
    destruct (transport env (sent s)) as [response | failure]; [ | done ].
    destruct (negb _); done.
  - intros pathAsUrl first project study target_case rest response
           -> -> ->. split.
    + intros ->. reflexivity.
    + intros Hcode. apply Z.eqb_neq in Hcode. rewrite Hcode. reflexivity.
Qed.

(** ** What every request carries *)

Section Emits.

Context (P : Event -> Prop).
Hypothesis P_print : forall what, P (Print what).
Hypothesis P_sleep : forall seconds, P (Sleep seconds).
Hypothesis P_call : forall what, P (Call what).

Lemma emits_ret {A} (a : A) : emits P (mret a).
Proof. intros env s. exists []. rewrite app_nil_r. done. Qed.

Lemma emits_raise {A} ex : emits P (@raise A ex).
Proof. intros env s. exists []. rewrite app_nil_r. done. Qed.

Lemma emits_out_of_fuel {A} : emits P (@out_of_fuel A).
Proof. intros env s. exists []. rewrite app_nil_r. done. Qed.

Lemma emits_ask : emits P ask.
Proof. intros env s. exists []. rewrite app_nil_r. done. Qed.

Lemma emits_lift {A} (r : Exn + A) : emits P (lift r).
Proof. destruct r; [ apply emits_raise | apply emits_ret ]. Qed.

Lemma emits_bind {A B} (m : M A) (k : A -> M B) :
  emits P m -> (forall a, emits P (k a)) -> emits P (m ≫= k).
Proof.
  intros Hm Hk env s. rewrite bind_run.
  destruct (Hm env s) as (ev1 & E1 & F1).
  destruct (m env s) as [[a | ex |] s1]; simpl in E1.
  - destruct (Hk a env s1) as (ev2 & E2 & F2).
    exists (ev1 ++ ev2). rewrite E2, E1, app_assoc.
    split; [ done | by apply Forall_app ].
  - by exists ev1.
  - by exists ev1.
Qed.

Lemma emits_attempt {A} (m : M A) : emits P m -> emits P (attempt m).
Proof.
  intros Hm env s. destruct (Hm env s) as (ev & E & F). exists ev.
  unfold attempt. destruct (m env s) as [[a | ex |] s1]; done.
Qed.

Lemma emits_emit ev : P ev -> emits P (emit ev).
Proof. intros Hev env s. exists [ev]. split; [ done | by constructor ]. Qed.

Lemma emits_print what : emits P (print what).
Proof. apply emits_emit, P_print. Qed.

Lemma emits_sleep seconds : emits P (time.sleep seconds).
Proof. apply emits_emit, P_sleep. Qed.

Lemma emits_request method url body headers :
  P (Request method url headers body) ->
  emits P (requests.request method url body headers).
Proof.
  intros Hreq env s. exists [Request method url headers body].
  unfold requests.request.
  destruct (transport env (sent s));
    (split; [ done | by constructor ]).
Qed.

End Emits.

Lemma returns_ret {A} (Q : A -> Prop) a : Q a -> returns Q (mret a).
Proof. intros Ha env s b s' [= <- _]. done. Qed.

Lemma returns_raise {A} (Q : A -> Prop) ex : returns Q (raise ex).
Proof. intros env s b s' H. done. Qed.

Lemma returns_bind {A B} (Q : B -> Prop) (m : M A) (k : A -> M B) :
  (forall a, returns Q (k a)) -> returns Q (m ≫= k).
Proof.
  intros Hk env s b s'. rewrite bind_run.
  destruct (m env s) as [[a | ex |] s1]; [ apply Hk | done | done ].
Qed.

Lemma open_steady_state_api_key fuel self path cores mem :
  returns (fun ss => SteadyState.api_key ss = CoFlow.api_key self)
          (CoFlow.open_steady_state fuel self path cores mem).
Proof.
  unfold CoFlow.open_steady_state.
  do 5 (apply returns_bind; intros ?).
  apply returns_bind; intros _. unfold CoFlow.initialize.
  repeat first
    [ apply returns_raise
    | apply returns_ret; reflexivity
    | progress cbv zeta
    | apply returns_bind; intros ?
    | case_match ].
Qed.

Section Authorized.

Context (key : string).

Create HintDb bearer.

#[local] Hint Resolve emits_ret emits_raise emits_out_of_fuel emits_ask
  emits_lift emits_print emits_sleep : bearer.
#[local] Hint Extern 1 (authorized _ _) => exact I : bearer.
#[local] Hint Extern 1 (authorized _ (Request _ _ _ _)) => reflexivity : bearer.

Ltac bearer :=
  repeat first
    [ solve [ auto with bearer ]
    | progress cbv zeta
    | apply emits_request; reflexivity
    | apply emits_emit; exact I
    | apply emits_bind; [ | intros ? ]
    | apply emits_attempt
    | case_match ].

Lemma authorized_run_poll fuel self :
  SteadyState.api_key self = key ->
  emits (authorized key)
        (SteadyState.run_poll fuel self (bearer (SteadyState.api_key self))).
Proof.
  intros <-. induction fuel as [| fuel IH]; simpl.
  - auto with bearer.
  - unfold requests.get, debug_print, status_error_text,
      requests.Response_json, getitem. bearer.
Qed.

Lemma authorized_SteadyState_run fuel self values :
  SteadyState.api_key self = key ->
  emits (authorized key) (SteadyState.run fuel self values).
Proof.
  intros Hkey. pose proof (authorized_run_poll fuel self Hkey).
  subst key. unfold SteadyState.run, requests.post, status_error_text. bearer.
Qed.

Lemma authorized_query self request :
  SteadyState.api_key self = key ->
  emits (authorized key) (SteadyState.query self request).
Proof.
  intros <-.
  unfold SteadyState.query, requests.post, status_error_text, debug_print,
    requests.Response_json.
  bearer.
Qed.

Lemma authorized_run_model fuel ss payload op lk :
  SteadyState.api_key ss = key ->
  emits (authorized key) (SteadyStateModel.run_model fuel ss payload op lk).
Proof.
  intros Hkey. pose proof (authorized_SteadyState_run fuel ss) as Hrun.
  pose proof (authorized_query ss) as Hquery.
  unfold SteadyStateModel.run_model, getitem.
  apply emits_bind; [ by apply Hrun | intros ? ].
  apply emits_bind; [ by apply Hquery | intros ? ].
  bearer.
Qed.

Lemma authorized_create_init_request self path :
  emits (authorized key) (CoFlow.create_init_request self path).
Proof. unfold CoFlow.create_init_request, list_getitem. bearer. Qed.

Lemma authorized_poll_status fuel self location :
  CoFlow.api_key self = key ->
  emits (authorized key)
        (CoFlow.poll_status fuel self location (bearer (CoFlow.api_key self))).
Proof.
  intros <-. induction fuel as [| fuel IH]; simpl.
  - auto with bearer.
  - unfold str_add, requests.get, requests.Response_json, getitem. bearer.
Qed.

Lemma authorized_open_steady_state fuel self path cores mem :
  CoFlow.api_key self = key ->
  emits (authorized key) (CoFlow.open_steady_state fuel self path cores mem).
Proof.
  intros Hkey. pose proof (authorized_poll_status fuel self) as Hpoll.
  pose proof (authorized_create_init_request self path) as Hinit.
  subst key.
  unfold CoFlow.open_steady_state, CoFlow.initialize,
    CoFlow._close_state_state_session, CoFlow.location_replace,
    requests.post, requests.delete, requests.Response_codes,
    requests.codes_attr, status_error_text, debug_print.
  repeat first
    [ solve [ auto with bearer ]
    | apply Hinit
    | apply Hpoll; reflexivity
    | progress cbv zeta
    | apply emits_request; reflexivity
    | apply emits_emit; exact I
    | apply emits_bind; [ | intros ? ]
    | case_match ].
Qed.

Lemma authorized_close_steady_state self ss :
  CoFlow.api_key self = key ->
  emits (authorized key) (CoFlow.close_steady_state self ss).
Proof.
  intros <-.
  unfold CoFlow.close_steady_state, requests.delete, status_error_text,
    debug_print.
  bearer.
Qed.

End Authorized.

(** X18. Every request [SteadyStateModel.run] sends, through whichever
    method of the client or of the session, carries the bearer token made of
    the API key of the client, and no other header. *)
Theorem run_requests_authorized fuel self input_values env s :
  exists events,
    log (SteadyStateModel.run fuel self input_values env s).2
      = log s ++ events
    /\ Forall (authorized (CoFlow.api_key (SteadyStateModel.client self)))
              events.
Proof.
  set (key := CoFlow.api_key (SteadyStateModel.client self)).
  destruct (SteadyStateModel.input_payload
              (SteadyStateModel.input_defs self) input_values [])
    as [ex | payload] eqn:Hin.
  { unfold SteadyStateModel.run. rewrite Hin. exists [].
    rewrite app_nil_r. done. }
  rewrite (run_after_open _ _ _ _ _ _ Hin).
  destruct (SteadyStateModel.output_payload _ _ _) as [op lk].
  destruct (authorized_open_steady_state key fuel
              (SteadyStateModel.client self)
              (SteadyStateModel.model_path self) 1 1024 eq_refl env s)
    as (ev1 & E1 & F1).
  pose proof (open_steady_state_api_key fuel (SteadyStateModel.client self)
                (SteadyStateModel.model_path self) 1 1024 env s) as Hkey.
  destruct (CoFlow.open_steady_state _ _ _ _ _ env s) as [[ss | ex |] s1];
    cbn [snd] in E1; [ | by exists ev1 | by exists ev1 ].
  specialize (Hkey ss s1 eq_refl). fold key in Hkey.
  destruct (authorized_run_model key fuel ss payload op lk Hkey env s1)
    as (ev2 & E2 & F2).
  destruct (authorized_close_steady_state key
              (SteadyStateModel.client self) ss eq_refl env
              (SteadyStateModel.run_model fuel ss payload op lk env s1).2)
    as (ev3 & E3 & F3).
  destruct (SteadyStateModel.run_model _ _ _ _ _ env s1)
    as [[out | ex |] s2]; cbn [snd] in E2, E3.
  - exists (ev1 ++ ev2 ++ ev3).
    split; [ | by repeat apply Forall_app_2 ].
    destruct (CoFlow.close_steady_state _ _ env s2) as [[[] | ex' |] s3];
      cbn [snd] in *; rewrite E3, E2, E1, <- !app_assoc; done.
  - exists (ev1 ++ ev2 ++ ev3).
    split; [ | by repeat apply Forall_app_2 ].
    destruct (CoFlow.close_steady_state _ _ env s2) as [[[] | ex' |] s3];
      cbn [snd] in *; rewrite E3, E2, E1, <- !app_assoc; done.
  - exists (ev1 ++ ev2). split; [ | by apply Forall_app_2 ].
    cbn [snd]. rewrite E2, E1, <- !app_assoc. done.
Qed.

(** ** The debug flag *)

Lemma alike_refl s : alike s s.
Proof. done. Qed.

Lemma alike_emit s1 s2 ev :
  alike s1 s2 ->
  alike {| sent := sent s1; log := log s1 ++ [ev] |}
        {| sent := sent s2; log := log s2 ++ [ev] |}.
Proof.
  intros [Hsent Hlog]. split; [ done | ]. cbn [log]. unfold effects in *.
  by rewrite !List.filter_app, Hlog.
Qed.

Lemma alike_print_l s1 s2 what :
  alike s1 s2 ->
  alike {| sent := sent s1; log := log s1 ++ [Print what] |} s2.
Proof.
  intros [Hsent Hlog]. split; [ done | ]. cbn [log]. unfold effects in *.
  rewrite List.filter_app, Hlog. cbn. by rewrite app_nil_r.
Qed.

Lemma alike_print_r s1 s2 what :
  alike s1 s2 ->
  alike s1 {| sent := sent s2; log := log s2 ++ [Print what] |}.
Proof.
  intros [Hsent Hlog]. split; [ done | ]. cbn [log]. unfold effects in *.
  rewrite List.filter_app, Hlog. cbn. by rewrite app_nil_r.
Qed.

Lemma related_ret {A} (a : A) : related (mret a) (mret a).
Proof. intros env1 env2 s1 s2 _ Hs. done. Qed.

Lemma related_raise {A} ex : related (@raise A ex) (raise ex).
Proof. intros env1 env2 s1 s2 _ Hs. done. Qed.

Lemma related_out_of_fuel {A} : related (@out_of_fuel A) out_of_fuel.
Proof. intros env1 env2 s1 s2 _ Hs. done. Qed.

Lemma related_lift {A} (r : Exn + A) : related (lift r) (lift r).
Proof. destruct r; [ apply related_raise | apply related_ret ]. Qed.

Lemma related_bind {A B} (m1 m2 : M A) (k1 k2 : A -> M B) :
  related m1 m2 -> (forall a, related (k1 a) (k2 a)) ->
  related (m1 ≫= k1) (m2 ≫= k2).
Proof.
  intros Hm Hk env1 env2 s1 s2 Henv Hs. rewrite !bind_run.
  destruct (Hm env1 env2 s1 s2 Henv Hs) as [Ho Hs'].
  destruct (m1 env1 s1) as [[a1 | ex1 |] t1],
           (m2 env2 s2) as [[a2 | ex2 |] t2];
    simpl in Ho; simplify_eq; simpl in Hs'; try done.
  by apply Hk.
Qed.

Lemma related_attempt {A} (m1 m2 : M A) :
  related m1 m2 -> related (attempt m1) (attempt m2).
Proof.
  intros Hm env1 env2 s1 s2 Henv Hs. unfold attempt.
  destruct (Hm env1 env2 s1 s2 Henv Hs) as [Ho Hs'].
  destruct (m1 env1 s1) as [[a1 | ex1 |] t1],
           (m2 env2 s2) as [[a2 | ex2 |] t2];
    simpl in Ho; simplify_eq; done.
Qed.

Lemma related_emit ev : related (emit ev) (emit ev).
Proof.
  intros env1 env2 s1 s2 _ Hs. split; [ done | ]. by apply alike_emit.
Qed.

Lemma related_print what : related (print what) (print what).
Proof. apply related_emit. Qed.

Lemma related_sleep seconds : related (time.sleep seconds) (time.sleep seconds).
Proof. apply related_emit. Qed.

Lemma related_request method url body headers :
  related (requests.request method url body headers)
          (requests.request method url body headers).
Proof.
  intros env1 env2 s1 s2 (Ht & _) [Hsent Hlog]. unfold requests.request.
  cbv zeta. rewrite Ht, Hsent.
  destruct (transport env2 (sent s2));
    (split; [ done | ]);
    (split; cbn [snd sent log];
     [ done
     | unfold effects in *; by rewrite !List.filter_app, Hlog ]).
Qed.

Lemma related_ask_bind {A} (k : Env -> M A) :
  (forall env1 env2, agree env1 env2 -> related (k env1) (k env2)) ->
  related (ask ≫= k) (ask ≫= k).
Proof.
  intros Hk env1 env2 s1 s2 Henv Hs. rewrite !bind_run. simpl.
  by apply Hk.
Qed.

Lemma related_debug_print what : related (debug_print what) (debug_print what).
Proof.
  intros env1 env2 s1 s2 _ Hs. unfold debug_print, print. rewrite !bind_run.
  simpl. destruct (debug_output env1), (debug_output env2); simpl;
    (split; [ done | ]).
  - by apply alike_emit.
  - by apply alike_print_l.
  - by apply alike_print_r.
  - done.
Qed.

Lemma related_status_error_text response :
  related (status_error_text response) (status_error_text response).
Proof.
  apply related_ask_bind. intros env1 env2 (_ & -> & _). apply related_ret.
Qed.

Create HintDb relate.
#[local] Hint Resolve related_ret related_raise related_out_of_fuel
  related_lift related_print related_sleep related_request
  related_debug_print related_status_error_text : relate.

(** Walks through a computation run twice, one bind or branch at a time;
    where the environment is read, it rewrites with what the two
    environments agree on. *)
Ltac relate :=
  repeat first
    [ solve [ auto with relate ]
    | progress cbv zeta
    | lazymatch goal with
      | |- related (ask ≫= _) (ask ≫= _) =>
          apply related_ask_bind;
          let Hc := fresh "Hc" in let Hu := fresh "Hu" in
          intros ? ? (_ & Hc & Hu); try rewrite Hc; try rewrite Hu
      | |- related (_ ≫= _) (_ ≫= _) => apply related_bind; [ | intros ? ]
      | |- related (attempt _) (attempt _) => apply related_attempt
      | |- related (emit _) (emit _) => apply related_emit
      end
    | case_match ].

Lemma related_run_poll fuel self headers :
  related (SteadyState.run_poll fuel self headers)
          (SteadyState.run_poll fuel self headers).
Proof.
  induction fuel as [| fuel IH]; cbn [SteadyState.run_poll];
    unfold requests.get, requests.Response_json, getitem; relate.
Qed.

Lemma related_SteadyState_run fuel self values :
  related (SteadyState.run fuel self values) (SteadyState.run fuel self values).
Proof.
  pose proof (related_run_poll fuel self).
  unfold SteadyState.run, requests.post. relate.
Qed.

Lemma related_query self request :
  related (SteadyState.query self request) (SteadyState.query self request).
Proof.
  unfold SteadyState.query, requests.post, requests.Response_json. relate.
Qed.

Lemma related_create_init_request self path :
  related (CoFlow.create_init_request self path)
          (CoFlow.create_init_request self path).
Proof. unfold CoFlow.create_init_request, list_getitem. relate. Qed.

Lemma related_poll_status fuel self location headers :
  related (CoFlow.poll_status fuel self location headers)
          (CoFlow.poll_status fuel self location headers).
Proof.
  induction fuel as [| fuel IH]; cbn [CoFlow.poll_status];
    unfold str_add, requests.get, requests.Response_json, getitem; relate.
Qed.

#[local] Hint Resolve related_run_poll related_SteadyState_run related_query
  related_create_init_request related_poll_status : relate.

Lemma related_open_steady_state fuel self path cores mem :
  related (CoFlow.open_steady_state fuel self path cores mem)
          (CoFlow.open_steady_state fuel self path cores mem).
Proof.
  unfold CoFlow.open_steady_state, CoFlow.initialize,
    CoFlow._close_state_state_session, CoFlow.location_replace,
    requests.post, requests.delete, requests.Response_codes,
    requests.codes_attr.
  relate.
Qed.

Lemma related_close_steady_state self ss :
  related (CoFlow.close_steady_state self ss)
          (CoFlow.close_steady_state self ss).
Proof.
  unfold CoFlow.close_steady_state, requests.delete.
  relate.
Qed.

Lemma related_run_model fuel ss payload op lk :
  related (SteadyStateModel.run_model fuel ss payload op lk)
          (SteadyStateModel.run_model fuel ss payload op lk).
Proof. unfold SteadyStateModel.run_model, getitem. relate. Qed.

#[local] Hint Resolve related_open_steady_state related_close_steady_state
  related_run_model : relate.

Lemma related_SteadyStateModel_run fuel self input_values :
  related (SteadyStateModel.run fuel self input_values)
          (SteadyStateModel.run fuel self input_values).
Proof.
  unfold SteadyStateModel.run, SteadyStateModel.local_model. relate.
Qed.

(** X19. The debug flag is never needed for correctness: with the flag on
    or off, [SteadyStateModel.run] ends with the same result or the same
    exception, after the same requests, sleeps and calls in the same order;
    only what is printed differs. *)
Theorem run_ignores_debug_output fuel self input_values env s flag :
  let quiet := SteadyStateModel.run fuel self input_values env s in
  let loud :=
    SteadyStateModel.run fuel self input_values (with_debug flag env) s in
  quiet.1 = loud.1
  /\ sent quiet.2 = sent loud.2
  /\ effects (log quiet.2) = effects (log loud.2).
Proof.
  cbv zeta.
  destruct (related_SteadyStateModel_run fuel self input_values
              env (with_debug flag env) s s) as (Ho & Hsent & Hlog);
    done.
Qed.

(** ** A run that is not accepted *)

(** X20. When the run request is not answered with 202, [SteadyState.run]
    raises [SessionError] with the text of the reply and the description of
    its status, and when the request fails in transport, the exception of the
    transport; in both cases the POST of the values is the only request, no
    status is polled and nothing is printed. *)
Theorem SteadyState_run_refused fuel self values env s :
  let posted :=
    {| sent := S (sent s);
       log := log s
              ++ [Request POST (SteadyState.steady_state_url self +:+ "/run")
                          (bearer (SteadyState.api_key self)) (Some values)] |} in
  (forall response,
     transport env (sent s) = Responds response ->
     Response.status_code response <> 202 ->
     SteadyState.run fuel self values env s
     = (Raised (SessionError
                  (Response.text response +:+ ": "
                   +:+ lookup_status_code (codes_dict env)
                         (Response.status_code response))),
        posted))
  /\ (forall msg,
        transport env (sent s) = Fails msg ->
        SteadyState.run fuel self values env s
        = (Raised (RequestException msg), posted)).
Proof.
  cbv zeta. unfold SteadyState.run.
  cbv [requests.post requests.request status_error_text
       mbind M_bind mret M_ret ask raise].
  unfold requests.codes_ACCEPTED. split.
  - intros response -> Hcode. apply Z.eqb_neq in Hcode. rewrite Hcode.
    reflexivity.
  - intros msg ->. reflexivity.
Qed.

(** ** A run of the model, end to end *)

(** X21. [SteadyStateModel.run] returns an output mapping exactly when every
    step succeeds in turn: each input alias has a value, the session opens,
    the run is accepted and comes to an end, the query returns a body with
    "properties" whose paths are all declared, and the session closes; the
    mapping is the translation of the query result. *)
Theorem SteadyStateModel_run_returns_iff fuel self input_values env s output s' :
  SteadyStateModel.run fuel self input_values env s = (Returned output, s')
  <-> exists payload ss s1 s2 model_output s3 results,
        SteadyStateModel.input_payload
          (SteadyStateModel.input_defs self) input_values [] = inr payload
        /\ CoFlow.open_steady_state fuel (SteadyStateModel.client self)
             (SteadyStateModel.model_path self) 1 1024 env s = (Returned ss, s1)
        /\ SteadyState.run fuel ss (RunBody payload) env s1 = (Returned tt, s2)
        /\ SteadyState.query ss
             (QueryBody (SteadyStateModel.output_payload
                           (SteadyStateModel.output_defs self) [] ∅).1) env s2
           = (Returned model_output, s3)
        /\ key_properties model_output = Some results
        /\ SteadyStateModel.translate
             (SteadyStateModel.output_payload
                (SteadyStateModel.output_defs self) [] ∅).2 results ∅
           = inr output
        /\ CoFlow.close_steady_state (SteadyStateModel.client self) ss env s3
           = (Returned tt, s').
Proof.
  destruct (SteadyStateModel.input_payload
              (SteadyStateModel.input_defs self) input_values [])
    as [ex | payload] eqn:Hin.
  { unfold SteadyStateModel.run. rewrite Hin. split; [ done | ].
    intros (? & ? & ? & ? & ? & ? & ? & ? & _). done. }
  rewrite (run_after_open _ _ _ _ _ _ Hin).
  destruct (SteadyStateModel.output_payload _ _ _) as [op lk]. cbn [fst snd].
  destruct (CoFlow.open_steady_state _ _ _ _ _ env s) as [[ss | ex |] s1].
  2, 3: split; [ done | intros (? & ? & ? & ? & ? & ? & ? & _ & ? & _); done ].
  rewrite run_model_run.
  destruct (SteadyState.run fuel ss (RunBody payload) env s1)
    as [[[] | ex |] s2] eqn:Hrun.
  2, 3: split;
    [ repeat case_match; done
    | intros (? & ? & ? & ? & ? & ? & ? & [= <-] & [= <- <-] & Hr & _);
      rewrite Hrun in Hr; done ].
  destruct (SteadyState.query ss (QueryBody op) env s2)
    as [[model_output | ex |] s3] eqn:Hquery.
  2, 3: split;
    [ repeat case_match; done
    | intros (? & ? & ? & ? & ? & ? & ? & [= <-] & [= <- <-] & Hr & Hq & _);
      rewrite Hrun in Hr; simplify_eq; rewrite Hquery in Hq; done ].
  destruct (key_properties model_output) as [results |] eqn:Hprops.
  2: split;
    [ repeat case_match; done
    | intros (? & ? & ? & ? & ? & ? & ? & [= <-] & [= <- <-] & Hr & Hq & Hp & _);
      rewrite Hrun in Hr; simplify_eq; rewrite Hquery in Hq; simplify_eq ].
  destruct (SteadyStateModel.translate lk results ∅) as [ex | out] eqn:Htr.
  - split;
      [ repeat case_match; done | ].
    intros (? & ? & ? & ? & ? & ? & ? & [= <-] & [= <- <-] & Hr & Hq & Hp & Ht & _).
    rewrite Hrun in Hr. simplify_eq. rewrite Hquery in Hq. simplify_eq.
    congruence.
  - split.
    + destruct (CoFlow.close_steady_state _ _ env s3) as [[[] | ? |] s4] eqn:Hc;
        [ | done | done ].
      intros [= <- <-].
      exists payload, ss, s1, s2, model_output, s3, results. done.
    + intros (? & ? & ? & ? & ? & ? & ? & [= <-] & [= <- <-] & Hr & Hq & Hp & Ht & Hc).
      rewrite Hrun in Hr. simplify_eq. rewrite Hquery in Hq. simplify_eq.
      rewrite Hc. congruence.
Qed.

(** ** Executions against a scripted service, continued *)

Lemma run_missing_input_witness :
  SteadyStateModel.run 5 rate_model bhp_inputs (world happy_script offline) start
  = (Raised (KeyError "gas_rate"), start).
Proof.
  apply (run_missing_input 5 rate_model bhp_inputs
           (world happy_script offline) start
           [("outlet_pressure", {| prop_path := pipe_path; prop_unit := "psi" |})]
           "gas_rate"
           {| prop_path := "Networks/Well Model/NetworkObjects/Gas/Outlet/Gas Rate SC Inst";
              prop_unit := "MMSCF/day" |}
           []).
  - reflexivity.
  - constructor; [ | constructor ]. eexists. vm_compute. reflexivity.
  - vm_compute. reflexivity.
Defined.

Lemma translate_last_entry_witness :
  exists output,
    SteadyStateModel.translate
      {[ bhp_path := ("bhp", {| prop_path := bhp_path; prop_unit := "psi" |}) ]}
      [ bhp_result;
        {| propertyPath := bhp_path; unit_ := "bar"; value := Float 5 0 |} ] ∅
    = inr output
    /\ output !! "bhp" = Some (Float 5 0)
    /\ output !! "pressure" = None.
Proof.
  assert (Ht : SteadyStateModel.translate
      {[ bhp_path := ("bhp", {| prop_path := bhp_path; prop_unit := "psi" |}) ]}
      [ bhp_result;
        {| propertyPath := bhp_path; unit_ := "bar"; value := Float 5 0 |} ] ∅
    = inr (<["bhp" := Float 5 0]> (<["bhp" := Float 123456 (-2)]> ∅)))
    by (vm_compute; reflexivity).
  eexists. split; [ exact Ht | ]. split.
  - rewrite (translate_last_entry _ _ _ Ht "bhp"). vm_compute. reflexivity.
  - rewrite (translate_last_entry _ _ _ Ht "pressure"). vm_compute. reflexivity.
Defined.

Lemma run_close_raises_witness :
  (SteadyStateModel.run 5 bhp_model bhp_inputs
     (world close_refused_script offline) start).1
  = Raised (SessionError ": Status: internal_server_error, Code: 500")
  /\ (SteadyStateModel.run 5 bhp_model bhp_inputs
        (world (opened_script ++ [reply 500 None; reply 503 None]) offline)
        start).1
     = Raised (SessionError ": Error: Unrecognized status code 503.").
Proof.
  split.
  - set (env := world close_refused_script offline).
    set (payload := [ {| propertyPath := pipe_path; unit_ := "psi";
                         value := Float 2667761 (-3) |} ]).
    set (opened := CoFlow.open_steady_state 5 tenant
                     "//repo/projA/studyB/caseC" 1 1024 env start).
    set (body := SteadyStateModel.run_model 5 bhp_session payload
                   (SteadyStateModel.output_payload
                      (SteadyStateModel.output_defs bhp_model) [] ∅).1
                   (SteadyStateModel.output_payload
                      (SteadyStateModel.output_defs bhp_model) [] ∅).2
                   env opened.2).
    set (closed := CoFlow.close_steady_state tenant bhp_session env body.2).
    rewrite (run_close_raises 5 bhp_model bhp_inputs env start payload
               bhp_session opened.2 body.1 body.2
               (SessionError ": Status: internal_server_error, Code: 500")
               closed.2).
    + reflexivity.
    + reflexivity.
    + vm_compute. reflexivity.
    + apply surjective_pairing.
    + vm_compute. discriminate.
    + vm_compute. reflexivity.
  - set (env := world (opened_script ++ [reply 500 None; reply 503 None])
                  offline).
    set (payload := [ {| propertyPath := pipe_path; unit_ := "psi";
                         value := Float 2667761 (-3) |} ]).
    set (opened := CoFlow.open_steady_state 5 tenant
                     "//repo/projA/studyB/caseC" 1 1024 env start).
    set (body := SteadyStateModel.run_model 5 bhp_session payload
                   (SteadyStateModel.output_payload
                      (SteadyStateModel.output_defs bhp_model) [] ∅).1
                   (SteadyStateModel.output_payload
                      (SteadyStateModel.output_defs bhp_model) [] ∅).2
                   env opened.2).
    set (closed := CoFlow.close_steady_state tenant bhp_session env body.2).
    rewrite (run_close_raises 5 bhp_model bhp_inputs env start payload
               bhp_session opened.2 body.1 body.2
               (SessionError ": Error: Unrecognized status code 503.")
               closed.2).
    + reflexivity.
    + reflexivity.
    + vm_compute. reflexivity.
    + apply surjective_pairing.
    + vm_compute. discriminate.
    + vm_compute. reflexivity.
Defined.

Lemma poll_status_poll_fails_witness :
  (CoFlow.poll_status 5 tenant (Some "/sessions/7/status") (bearer "k")
     (world [session_status 100; reply 503 None] offline) start).1
  = Raised (SessionError
              "Cannot get session status: Error: Unrecognized status code 503.")
  /\ CoFlow.poll_status 5 tenant (Some "/sessions/7/status") (bearer "k")
       (world [session_status 100] offline) start
     = (Raised (RequestException "connection refused"),
        {| sent := 2;
           log := [Request GET "https://tenant/api/sessions/7/status"
                           (bearer "k") None;
                   Print (Text "Provisioning compute...");
                   Sleep 1;
                   Request GET "https://tenant/api/sessions/7/status"
                           (bearer "k") None] |}).
Proof.
  split.
  - destruct (poll_status_poll_fails tenant "/sessions/7/status" (bearer "k")
                (world [session_status 100; reply 503 None] offline)
                1 5 start) as [Hrefused _].
    + lia.
    + intros [| i] Hi; [ | lia ].
      eexists; eexists; repeat split; reflexivity.
    + rewrite (Hrefused {| Response.status_code := 503; Response.text := "";
                           Response.headers := ∅; Response.json := None |});
        [ reflexivity | reflexivity | discriminate ].
  - destruct (poll_status_poll_fails tenant "/sessions/7/status" (bearer "k")
                (world [session_status 100] offline)
                1 5 start) as [_ Hfailed].
    + lia.
    + intros [| i] Hi; [ | lia ].
      eexists; eexists; repeat split; reflexivity.
    + rewrite (Hfailed "connection refused"); reflexivity.
Defined.

Lemma poll_status_never_gives_up_witness :
  (CoFlow.poll_status 4 tenant (Some "/sessions/7/status") (bearer "k")
     always_pending start).1 = Unfinished
  /\ sent (CoFlow.poll_status 4 tenant (Some "/sessions/7/status") (bearer "k")
             always_pending start).2 = 4%nat.
Proof.
  destruct (poll_status_never_gives_up tenant "/sessions/7/status" (bearer "k")
              always_pending 4 start) as [E _].
  - intros i. eexists; eexists; repeat split; reflexivity.
  - rewrite E. split; reflexivity.
Defined.

Lemma run_poll_never_gives_up_witness :
  (SteadyState.run_poll 4 bhp_session (bearer "k") always_running start).1
  = Unfinished
  /\ effects (log (SteadyState.run_poll 4 bhp_session (bearer "k")
                     always_running start).2)
     = concat (replicate 4
                 [Request GET
                    "https://tenant/api/sessions/7/current/api/v1/steady-state/run"
                    (bearer "k") None;
                  Sleep 1]).
Proof.
  destruct (run_poll_never_gives_up bhp_session (bearer "k")
              always_running 4 start) as (statuses & _ & _ & E & Heffects).
  - intros i. exists "Running", "". split; [ | reflexivity ].
    eexists; eexists; repeat split; reflexivity.
  - rewrite E. split; [ reflexivity | ]. cbn [snd log start app].
    exact Heffects.
Defined.

Lemma run_poll_poll_fails_witness :
  (SteadyState.run_poll 5 bhp_session (bearer "k")
     (world [run_status "Running" ""; reply 500 None] offline) start).1
  = Raised (SessionError ": Status: internal_server_error, Code: 500")
  /\ sent (SteadyState.run_poll 5 bhp_session (bearer "k")
             (world [run_status "Running" ""; reply 500 None] offline)
             start).2 = 2%nat.
Proof.
  destruct (run_poll_poll_fails bhp_session (bearer "k")
              (world [run_status "Running" ""; reply 500 None] offline)
              ["Running"] 5 start
              {| Response.status_code := 500; Response.text := "";
                 Response.headers := ∅; Response.json := None |})
    as (E1 & E2 & _).
  - simpl. lia.
  - intros [| i] status Hi; [ | done ]. simplify_eq/=.
    split; [ reflexivity | ]. exists "".
    eexists; eexists; repeat split; reflexivity.
  - reflexivity.
  - discriminate.
  - split; [ exact E1 | exact E2 ].
Defined.

Lemma open_steady_state_returns_witness :
  (CoFlow.open_steady_state 5 tenant "//repo/projA/studyB/caseC" 1 1024
     (world happy_script offline) start).1
  = Returned bhp_session
  /\ sent (CoFlow.open_steady_state 5 tenant "//repo/projA/studyB/caseC" 1 1024
             (world happy_script offline) start).2 = 5%nat.
Proof.
  edestruct (open_steady_state_returns 2 5 tenant "//repo/projA/studyB/caseC"
               1 1024 (world happy_script offline) start)
    as (E1 & E2 & _).
  - lia.
  - reflexivity.
  - reflexivity.
  - reflexivity.
  - intros [| [| i]] Hi; [ | | lia ];
      (eexists; eexists; repeat split; reflexivity).
  - eexists; eexists; repeat split; reflexivity.
  - vm_compute. reflexivity.
  - vm_compute. reflexivity.
  - reflexivity.
  - reflexivity.
  - split; [ rewrite E1 | rewrite E2 ]; reflexivity.
Defined.

Lemma input_payload_in_order_witness :
  SteadyStateModel.input_payload
    (SteadyStateModel.input_defs bhp_model)
    (<["unused" := Float 1 0]> bhp_inputs) []
  = inr [ {| propertyPath := pipe_path; unit_ := "psi";
             value := Float 2667761 (-3) |} ].
Proof.
  apply (proj2 (input_payload_in_order
                  (SteadyStateModel.input_defs bhp_model)
                  (<["unused" := Float 1 0]> bhp_inputs) _)).
  constructor; [ | constructor ].
  split; [ reflexivity | ]. split; [ reflexivity | ].
  vm_compute. reflexivity.
Defined.

Lemma lookup_status_code_first_name_witness :
  lookup_status_code some_codes 201 = "Status: created, Code: 201"
  /\ lookup_status_code some_codes 418
     = "Error: Unrecognized status code 418.".
Proof.
  destruct (lookup_status_code_first_name some_codes 201) as [Hfirst _].
  destruct (lookup_status_code_first_name some_codes 418) as [_ Hnone].
  split.
  - rewrite (Hfirst [("ok", 200); ("OK", 200)] "created"
               [("CREATED", 201); ("accepted", 202); ("ACCEPTED", 202);
                ("unauthorized", 401); ("UNAUTHORIZED", 401);
                ("internal_server_error", 500)]);
      [ reflexivity | reflexivity | ].
    repeat constructor; discriminate.
  - rewrite Hnone; [ reflexivity | ].
    repeat constructor; discriminate.
Defined.

Lemma create_init_request_returns_iff_witness :
  (exists request,
     (CoFlow.create_init_request tenant "//repo/projA/studyB/caseC"
        (world [] offline) start).1 = Returned request)
  /\ ~ (exists request,
          (CoFlow.create_init_request tenant "//repo/projA/studyB"
             (world [] offline) start).1 = Returned request).
Proof.
  split.
  - apply (proj1 (create_init_request_returns_iff tenant
                    "//repo/projA/studyB/caseC" (world [] offline) start)).
    eexists. split; [ vm_compute; reflexivity | ]. vm_compute. lia.
  - rewrite (proj1 (create_init_request_returns_iff tenant
                      "//repo/projA/studyB" (world [] offline) start)).
    intros (pathAsUrl & Hsplit & Hlen). vm_compute in Hsplit.
    injection Hsplit as <-. vm_compute in Hlen. lia.
Defined.

Lemma query_returns_iff_witness :
  (exists obj,
     (SteadyState.query bhp_session (QueryBody [])
        (world [query_result [bhp_result]] offline) start).1 = Returned obj
     /\ key_properties obj = Some [bhp_result])
  /\ (SteadyState.query bhp_session (QueryBody [])
        (world [reply 500 None] offline) start).1
     = Raised (SessionError ": Status: internal_server_error, Code: 500").
Proof.
  split.
  - exists {| key_statusCode := None; key_status := None;
              key_message := None; key_properties := Some [bhp_result] |}.
    split; [ | reflexivity ].
    apply (proj1 (query_returns_iff bhp_session (QueryBody [])
                    (world [query_result [bhp_result]] offline) start)).
    eexists. split; [ reflexivity | ]. split; reflexivity.
  - destruct (query_returns_iff bhp_session (QueryBody [])
                (world [reply 500 None] offline) start) as (_ & Hrefused & _).
    rewrite (Hrefused {| Response.status_code := 500; Response.text := "";
                         Response.headers := ∅; Response.json := None |});
      [ reflexivity | reflexivity | discriminate ].
Defined.

Lemma close_steady_state_returns_iff_witness :
  (CoFlow.close_steady_state tenant bhp_session
     (world [reply 202 None] offline) start).1 = Returned tt
  /\ (CoFlow.close_steady_state tenant bhp_session
        (world [reply 200 None] offline) start).1
     = Raised (SessionError ": Status: ok, Code: 200").
Proof.
  split.
  - apply (proj1 (close_steady_state_returns_iff tenant bhp_session
                    (world [reply 202 None] offline) start)).
    eexists. split; reflexivity.
  - destruct (close_steady_state_returns_iff tenant bhp_session
                (world [reply 200 None] offline) start) as (_ & Hrefused & _).
    rewrite (Hrefused {| Response.status_code := 200; Response.text := "";
                         Response.headers := ∅; Response.json := None |});
      [ reflexivity | reflexivity | discriminate ].
Defined.

Lemma open_steady_state_local_never_returns_witness :
  (open_steady_state_local tenant "//repo/projA/studyB/caseC"
     (world [reply 201 None] offline) start).1
  = Raised (TypeError
      "SteadyState.__init__() missing 1 required positional argument: 'api_key'").
Proof.
  destruct (open_steady_state_local_never_returns tenant
              "//repo/projA/studyB/caseC" (world [reply 201 None] offline)
              start) as [_ Hlocal].
  edestruct Hlocal as [Hcreated _];
    [ vm_compute; reflexivity | vm_compute; reflexivity | reflexivity | ].
  rewrite Hcreated; reflexivity.
Defined.

Lemma SteadyState_run_refused_witness :
  (SteadyState.run 5 bhp_session (RunBody [])
     (world [reply 401 None] offline) start).1
  = Raised (SessionError ": Status: unauthorized, Code: 401")
  /\ SteadyState.run 5 bhp_session (RunBody []) (world [] offline) start
     = (Raised (RequestException "connection refused"),
        {| sent := 1;
           log := [Request POST
                     "https://tenant/api/sessions/7/current/api/v1/steady-state/run"
                     (bearer "k") (Some (RunBody []))] |}).
Proof.
  destruct (SteadyState_run_refused 5 bhp_session (RunBody [])
              (world [reply 401 None] offline) start) as [Hrefused _].
  destruct (SteadyState_run_refused 5 bhp_session (RunBody [])
              (world [] offline) start) as [_ Hfailed].
  split.
  - rewrite (Hrefused {| Response.status_code := 401; Response.text := "";
                         Response.headers := ∅; Response.json := None |});
      [ reflexivity | reflexivity | discriminate ].
  - rewrite (Hfailed "connection refused"); reflexivity.
Defined.

Lemma SteadyStateModel_run_returns_iff_witness :
  (SteadyStateModel.run 5 bhp_model bhp_inputs
     (world happy_script offline) start).1
  = Returned {[ "bhp" := Float 123456 (-2) ]}.
Proof.
  set (env := world happy_script offline).
  set (payload := [ {| propertyPath := pipe_path; unit_ := "psi";
                       value := Float 2667761 (-3) |} ]).
  set (opened := CoFlow.open_steady_state 5 tenant
                   "//repo/projA/studyB/caseC" 1 1024 env start).
  set (ran := SteadyState.run 5 bhp_session (RunBody payload) env opened.2).
  set (queried := SteadyState.query bhp_session
                    (QueryBody [ {| query_propertyPath := bhp_path;
                                    query_unit := "psi" |} ]) env ran.2).
  set (closed := CoFlow.close_steady_state tenant bhp_session env queried.2).
  rewrite (proj2 (SteadyStateModel_run_returns_iff 5 bhp_model bhp_inputs env
                    start {[ "bhp" := Float 123456 (-2) ]} closed.2));
    [ reflexivity | ].
  exists payload, bhp_session, opened.2, ran.2,
    {| key_statusCode := None; key_status := None; key_message := None;
       key_properties := Some [bhp_result] |},
    queried.2, [bhp_result].
  repeat split; vm_compute; reflexivity.
Defined.
